(** * organize_desktop: a shallow embedding of the organizer and its properties

    The development follows [organize_desktop.py]: the static category table
    and the classifier, the sidecar move log, the collision-safe mover, and
    the two operations [organize] and [undo].  The file system, the console
    and the clock are explicit state; Python exceptions are explicit results
    that keep the state reached when they were raised. *)

From Stdlib Require Import Ascii String ZArith.
From stdpp Require Import base option list strings gmap.

Set Warnings "-register-all".

Local Open Scope string_scope.
Local Open Scope list_scope.

(** ** Text *)

(** A Python [str] is written as the string of the bytes of its UTF-8 form:
    an ASCII character is one character below 128, and any other character is
    a run of characters from 128 on. [lower] and [upper] are the case
    conversions of the ASCII letters; on a string of ASCII characters they
    are what [str.lower()] and [str.upper()] compute. What Python does to a
    string that holds other characters is a matter of its Unicode tables and
    is left to the platform (see [str_lower]). *)
Module Text.

Definition is_ascii_char (c : ascii) : bool := (nat_of_ascii c <? 128)%nat.

Fixpoint is_ascii (s : string) : bool :=
  match s with
  | EmptyString => true
  | String c rest => is_ascii_char c && is_ascii rest
  end.

Definition is_upper (c : ascii) : bool :=
  let n := nat_of_ascii c in (65 <=? n)%nat && (n <=? 90)%nat.

Definition is_lower (c : ascii) : bool :=
  let n := nat_of_ascii c in (97 <=? n)%nat && (n <=? 122)%nat.

Definition lower_char (c : ascii) : ascii :=
  if is_upper c then ascii_of_nat (nat_of_ascii c + 32) else c.

Definition upper_char (c : ascii) : ascii :=
  if is_lower c then ascii_of_nat (nat_of_ascii c - 32) else c.

(** [str.lower()] on a string of ASCII characters. *)
Fixpoint lower (s : string) : string :=
  match s with
  | EmptyString => EmptyString
  | String c rest => String (lower_char c) (lower rest)
  end.

(** [str.upper()] on a string of ASCII characters. *)
Fixpoint upper (s : string) : string :=
  match s with
  | EmptyString => EmptyString
  | String c rest => String (upper_char c) (upper rest)
  end.

(** [sep.join(parts)] *)
Fixpoint join (sep : string) (parts : list string) : string :=
  match parts with
  | [] => ""
  | [p] => p
  | p :: rest => p +:+ sep +:+ join sep rest
  end.

(** Position of the last occurrence of [c] in [s], as [str.rfind] gives it
    for a one-character needle ([None] for Python's [-1]). *)
Fixpoint rfind (c : ascii) (s : string) : option nat :=
  match s with
  | EmptyString => None
  | String d rest =>
      match rfind c rest with
      | Some i => Some (S i)
      | None => if Ascii.eqb c d then Some 0 else None
      end
  end.

(** [s[:i]] and [s[i:]] *)
Fixpoint take (i : nat) (s : string) : string :=
  match i, s with
  | S j, String c rest => String c (take j rest)
  | _, _ => EmptyString
  end.

Fixpoint drop (i : nat) (s : string) : string :=
  match i, s with
  | S j, String _ rest => drop j rest
  | _, _ => s
  end.

(** [s.split(c)] for a one-character separator. *)
Fixpoint split (c : ascii) (s : string) : list string :=
  match s with
  | EmptyString => [""]
  | String d rest =>
      if Ascii.eqb c d then "" :: split c rest
      else match split c rest with
           | [] => [String d ""]
           | w :: ws => String d w :: ws
           end
  end.

Definition is_digit (c : ascii) : bool :=
  let n := nat_of_ascii c in (48 <=? n)%nat && (n <=? 57)%nat.

(** [s] starts with text of the given shape, in which [d] stands for any
    digit and every other character for itself; the result is what follows
    that text. *)
Fixpoint match_shape (shape s : string) : option string :=
  match shape with
  | EmptyString => Some s
  | String p shape' =>
      match s with
      | EmptyString => None
      | String c s' =>
          if (if Ascii.eqb p "d" then is_digit c else Ascii.eqb p c)
          then match_shape shape' s' else None
      end
  end.

(** The ISO 8601 form [datetime.isoformat()] gives a date and time without
    zone: [YYYY-MM-DDTHH:MM:SS], followed by the six digits of the
    microseconds when they are not zero. *)
Definition is_isoformat (s : string) : bool :=
  match match_shape "dddd-dd-ddTdd:dd:dd" s with
  | Some EmptyString => true
  | Some rest =>
      match match_shape ".dddddd" rest with
      | Some EmptyString => true
      | _ => false
      end
  | None => false
  end.

End Text.

(** ** The category table and the classifier *)

(** [CATEGORIES]: a dict, so an association list in insertion order, whose
    values are sets of extensions. *)
Definition CATEGORIES : list (string * gset string) :=
  [ ("Images", list_to_set [".png"; ".jpg"; ".jpeg"; ".gif"; ".bmp"; ".svg"; ".webp"]);
    ("Documents", list_to_set [".pdf"; ".docx"; ".doc"; ".xlsx"; ".xls"; ".pptx"; ".txt"; ".md"]);
    ("Archives", list_to_set [".zip"; ".tar"; ".gz"; ".rar"; ".7z"]);
    ("Code", list_to_set [".py"; ".js"; ".ts"; ".java"; ".c"; ".cpp"; ".h"; ".html"; ".css"; ".json"]);
    ("Audio", list_to_set [".mp3"; ".wav"; ".flac"; ".aac"]);
    ("Video", list_to_set [".mp4"; ".mkv"; ".mov"; ".avi"]) ].

Definition LOG_FILE : string := ".organize_log.json".

(** The loop of [category_for] over the items of a table: the first category
    whose set holds [ext], and ["Others"] when the loop falls through. *)
Fixpoint first_category (ext : string) (table : list (string * gset string)) : string :=
  match table with
  | [] => "Others"
  | (cat, exts) :: rest =>
      if bool_decide (ext ∈ exts) then cat else first_category ext rest
  end.

(** ** JSON values *)

(** The values [json.loads] produces and [json.dumps] accepts in this program
    (numbers are the integers; the program writes no other number). A dict is
    an association list in insertion order. *)
Inductive json : Type :=
  | JNull
  | JBool (b : bool)
  | JNum (n : Z)
  | JStr (s : string)
  | JArr (items : list json)
  | JObj (fields : list (string * json)).

Module Json.

(** First binding of [k] in the fields of a dict. *)
Fixpoint assoc (k : string) (fields : list (string * json)) : option json :=
  match fields with
  | [] => None
  | (k', v) :: rest => if String.eqb k k' then Some v else assoc k rest
  end.

(** [d[k] = v] on the fields of a dict: an existing key keeps its position,
    a new key goes last. *)
Fixpoint assign (k : string) (v : json) (fields : list (string * json))
  : list (string * json) :=
  match fields with
  | [] => [(k, v)]
  | (k', v') :: rest =>
      if String.eqb k k' then (k, v) :: rest else (k', v') :: assign k v rest
  end.

(** Python truthiness, as [not x] tests it. *)
Definition truthy (j : json) : bool :=
  match j with
  | JNull => false
  | JBool b => b
  | JNum n => negb (Z.eqb n 0)
  | JStr s => negb (String.eqb s "")
  | JArr items => match items with [] => false | _ => true end
  | JObj fields => match fields with [] => false | _ => true end
  end.

(** The characters of a string, each as a one-character string. *)
Fixpoint chars (s : string) : list json :=
  match s with
  | EmptyString => []
  | String c rest => JStr (String c "") :: chars rest
  end.

End Json.

(** A move record [{"from": ..., "to": ...}] as [organize] builds it. *)
Definition move_record (from to : string) : json :=
  JObj [("from", JStr from); ("to", JStr to)].

(** ** Paths *)

(** A path is the list of its components below the root: the model has
    absolute, normalised paths only, and no symbolic links, so that
    [expanduser().resolve()] changes nothing and is left out of [organize]
    and [undo]. A relative string is read from the root. Names are compared
    as written, and [suffix] and [stem] are those of CPython 3.12. *)
Abbreviation path := (list string).

Module PurePath.

(** [p / name] *)
Definition joinpath (p : path) (name : string) : path := p ++ [name].

(** [p.name]: the last component, empty for the root. *)
Definition name (p : path) : string := List.last p "".

(** [p.parent]: the root is its own parent. *)
Definition parent (p : path) : path := removelast p.

(** Index of the dot that starts the suffix of a file name: the last dot,
    when it is neither the first nor the last character. *)
Definition suffix_index (nm : string) : option nat :=
  match Text.rfind "." nm with
  | Some i =>
      if (0 <? i)%nat && (i <? String.length nm - 1)%nat then Some i else None
  | None => None
  end.

(** [p.suffix] and [p.stem], on the name. *)
Definition suffix_of (nm : string) : string :=
  match suffix_index nm with
  | Some i => Text.drop i nm
  | None => ""
  end.

Definition stem_of (nm : string) : string :=
  match suffix_index nm with
  | Some i => Text.take i nm
  | None => nm
  end.

Definition suffix (p : path) : string := suffix_of (name p).
Definition stem (p : path) : string := stem_of (name p).

(** [str(p)] *)
Definition str (p : path) : string := "/" +:+ Text.join "/" p.

(** [Path(s)]: the components of [s], without the empty ones and the dots. *)
Definition parse (s : string) : path :=
  List.filter (fun c => negb (String.eqb c "") && negb (String.eqb c "."))
    (Text.split "/" s).

End PurePath.

Notation "p // n" := (PurePath.joinpath p n) (at level 40, left associativity).

(** ** The world: file system, console, clock *)

(** What a file holds: [Json j] is the text [json.dumps] gives for [j], which
    [json.loads] reads back as [j]; [Raw s] is any text that [json.loads]
    rejects. *)
Inductive content : Type :=
  | Raw (s : string)
  | Json (j : json).

Inductive node : Type :=
  | File (c : content)
  | Dir.

(** The exceptions the program can meet. *)
Inductive exn : Type :=
  | FileNotFoundError
  | FileExistsError
  | NotADirectoryError
  | IsADirectoryError
  | OSError
  | ShutilError
  | JSONDecodeError
  | KeyError
  | TypeError
  | AttributeError
  | ValueError.

(** [fs] maps every existing path to its node, [stdout] holds the printed
    lines, oldest first, and [clock] counts the readings of the system clock
    made so far. *)
Record World : Type := mkWorld {
  fs : gmap path node;
  stdout : list string;
  clock : nat
}.

Definition set_fs (f : gmap path node → gmap path node) (w : World) : World :=
  mkWorld (f (fs w)) (stdout w) (clock w).

Definition put_line (line : string) (w : World) : World :=
  mkWorld (fs w) (stdout w ++ [line]) (clock w).

Definition tick (w : World) : World :=
  mkWorld (fs w) (stdout w) (S (clock w)).

(** A call either returns a value or raises; both keep the world reached. *)
Inductive outcome (A : Type) : Type :=
  | Return (a : A) (w : World)
  | Raise (e : exn) (w : World).
Arguments Return {A} a w.
Arguments Raise {A} e w.

Definition world_of {A} (o : outcome A) : World :=
  match o with Return _ w => w | Raise _ w => w end.

Definition M (A : Type) : Type := World → outcome A.

Definition ret {A} (a : A) : M A := fun w => Return a w.
Definition raise {A} (e : exn) : M A := fun w => Raise e w.
Definition bind {A B} (m : M A) (k : A → M B) : M B :=
  fun w => match m w with
           | Return a w' => k a w'
           | Raise e w' => Raise e w'
           end.

Declare Scope prog_scope.
Delimit Scope prog_scope with prog.
Notation "x <- m ;; k" := (bind m (fun x => k))
  (at level 100, m at next level, right associativity) : prog_scope.
Notation "m ;; k" := (bind m (fun _ => k))
  (at level 100, right associativity) : prog_scope.
Local Open Scope prog_scope.

(** What the platform decides: the order in which a directory yields its
    entries, the two renderings of the clock at its [n]-th reading, and what
    [str.lower()] and [str.upper()] return for a string that holds
    characters beyond ASCII. *)
Class Platform : Type := {
  listdir_order : list string → list string;
  strftime_now : nat → string;
  utcnow_iso : nat → string;
  lower_beyond_ascii : string → string;
  upper_beyond_ascii : string → string
}.

(** A directory yields each of its entries once, in some order. *)
Class FaithfulListing (P : Platform) : Prop :=
  listdir_order_perm : ∀ names, listdir_order names ≡ₚ names.

(** [isoformat()] returns the ISO 8601 form: the clock's second rendering has
    that shape. *)
Class IsoClock (P : Platform) : Prop :=
  utcnow_iso_shape : ∀ n, Text.is_isoformat (utcnow_iso n) = true.

(** [s.lower()] and [s.upper()] *)
Definition str_lower `{Platform} (s : string) : string :=
  if Text.is_ascii s then Text.lower s else lower_beyond_ascii s.

Definition str_upper `{Platform} (s : string) : string :=
  if Text.is_ascii s then Text.upper s else upper_beyond_ascii s.

Definition category_for `{Platform} (ext : string) : string :=
  first_category (str_lower ext) CATEGORIES.

(** [print(line)] *)
Definition print (line : string) : M unit :=
  fun w => Return tt (put_line line w).

Module Os.

Definition path_exists (p : path) : M bool :=
  fun w => Return (bool_decide (is_Some (fs w !! p))) w.

Definition is_dir (p : path) : M bool :=
  fun w => Return (match fs w !! p with Some Dir => true | _ => false end) w.

(** [os.mkdir]: the path must be free and its parent a directory. *)
Definition mkdir_raw (p : path) : M unit :=
  fun w =>
    match fs w !! p with
    | Some _ => Raise FileExistsError w
    | None =>
        match p with
        | [] => Raise FileNotFoundError w
        | _ =>
            match fs w !! PurePath.parent p with
            | Some Dir => Return tt (set_fs (insert p Dir) w)
            | Some (File _) => Raise NotADirectoryError w
            | None => Raise FileNotFoundError w
            end
        end
    end.

(** [p.mkdir(exist_ok=True)]: an existing directory is accepted. *)
Definition mkdir_exist_ok (p : path) : M unit :=
  fun w =>
    match fs w !! p with
    | Some Dir => Return tt w
    | _ => mkdir_raw p w
    end.

(** [p.mkdir(parents=True, exist_ok=True)], by recursion on the components of
    [p] from the last one: a missing parent is made first, in the same way. *)
Fixpoint makedirs_rev (rp : list string) : M unit :=
  fun w =>
    let p := rev rp in
    match fs w !! p with
    | Some Dir => Return tt w
    | Some (File _) => Raise FileExistsError w
    | None =>
        match rp with
        | [] => Raise FileNotFoundError w
        | _ :: rparent =>
            match fs w !! rev rparent with
            | Some Dir => Return tt (set_fs (insert p Dir) w)
            | Some (File _) => Raise NotADirectoryError w
            | None => bind (makedirs_rev rparent) (fun _ => mkdir_exist_ok p) w
            end
        end
    end.

Definition makedirs (p : path) : M unit := makedirs_rev (rev p).

(** [p.write_text(text)]: creates or overwrites the file. *)
Definition write_text (p : path) (c : content) : M unit :=
  fun w =>
    match fs w !! p with
    | Some Dir => Raise IsADirectoryError w
    | Some (File _) => Return tt (set_fs (insert p (File c)) w)
    | None =>
        match p with
        | [] => Raise IsADirectoryError w
        | _ =>
            match fs w !! PurePath.parent p with
            | Some Dir => Return tt (set_fs (insert p (File c)) w)
            | Some (File _) => Raise NotADirectoryError w
            | None => Raise FileNotFoundError w
            end
        end
    end.

(** [p.read_text()] *)
Definition read_text (p : path) : M content :=
  fun w =>
    match fs w !! p with
    | Some (File c) => Return c w
    | Some Dir => Raise IsADirectoryError w
    | None => Raise FileNotFoundError w
    end.

(** The name of [p] when [p] is an entry of the directory [d]. *)
Definition entry_name (d p : path) : option string :=
  if bool_decide (take (length d) p = d) then
    match drop (length d) p with
    | [n] => Some n
    | _ => None
    end
  else None.

Definition entries (m : gmap path node) (d : path) : list string :=
  omap (fun pn => entry_name d pn.1) (map_to_list m).

(** [p.iterdir()]: the entries are read when the iteration starts, in the
    order of the platform. *)
Definition iterdir `{Platform} (d : path) : M (list path) :=
  fun w =>
    match fs w !! d with
    | Some Dir =>
        Return (map (PurePath.joinpath d) (listdir_order (entries (fs w) d))) w
    | Some (File _) => Raise NotADirectoryError w
    | None => Raise FileNotFoundError w
    end.

End Os.

(** [shutil.move] *)
Module Shutil.

(** Where [p] goes when the tree at [src] is renamed to [dst]. *)
Definition rebase (src dst p : path) : path :=
  if bool_decide (take (length src) p = src) then dst ++ drop (length src) p
  else p.

Definition relocate (src dst : path) (m : gmap path node) : gmap path node :=
  list_to_map (map (fun pn => (rebase src dst pn.1, pn.2)) (map_to_list m)).

(** [os.rename(src, real_dst)] with the copy-and-delete fallback of
    [shutil.move]; [real_dst] is not an existing directory when this runs. *)
Definition rename_or_copy (src real_dst : path) : M unit :=
  fun w =>
    match fs w !! src with
    | None => Raise FileNotFoundError w
    | Some (File c) =>
        match fs w !! real_dst with
        | Some Dir => Raise IsADirectoryError w
        | Some (File _) =>
            Return tt (set_fs (fun m => <[real_dst := File c]> (delete src m)) w)
        | None =>
            match fs w !! PurePath.parent real_dst with
            | Some Dir =>
                Return tt (set_fs (fun m => <[real_dst := File c]> (delete src m)) w)
            | Some (File _) => Raise NotADirectoryError w
            | None => Raise FileNotFoundError w
            end
        end
    | Some Dir =>
        match fs w !! real_dst with
        | Some (File _) => Raise FileExistsError w
        | Some Dir => Raise OSError w
        | None =>
            if bool_decide (take (length src) real_dst = src)
            then Raise ShutilError w
            else bind (Os.makedirs (PurePath.parent real_dst))
                      (fun _ w' => Return tt (set_fs (relocate src real_dst) w')) w
        end
    end.

Definition move (src dst : path) : M unit :=
  fun w =>
    match fs w !! dst with
    | Some Dir =>
        if bool_decide (src = dst) then Return tt w
        else
          let real_dst := dst // PurePath.name src in
          match fs w !! real_dst with
          | Some _ => Raise ShutilError w
          | None => rename_or_copy src real_dst w
          end
    | _ => rename_or_copy src dst w
    end.

End Shutil.

(** The operations of Python values the program uses on what [json.loads]
    returned. *)
Module Py.

(** [x[k]] for a string key. *)
Definition getitem (x : json) (k : string) : M json :=
  match x with
  | JObj fields =>
      match Json.assoc k fields with
      | Some v => ret v
      | None => raise KeyError
      end
  | _ => raise TypeError
  end.

(** [x.get(k)], with [None] as [JNull]. *)
Definition get (x : json) (k : string) : M json :=
  match x with
  | JObj fields => ret (default JNull (Json.assoc k fields))
  | _ => raise AttributeError
  end.

(** [x[k] = v] for a string key. *)
Definition setitem (x : json) (k : string) (v : json) : M json :=
  match x with
  | JObj fields => ret (JObj (Json.assign k v fields))
  | _ => raise TypeError
  end.

(** [x.extend(more)] *)
Definition extend (x : json) (more : list json) : M json :=
  match x with
  | JArr items => ret (JArr (items ++ more))
  | _ => raise AttributeError
  end.

(** [reversed(x)]: a list, a string and a dict (its keys) can be reversed. *)
Definition reversed (x : json) : M (list json) :=
  match x with
  | JArr items => ret (rev items)
  | JStr s => ret (rev (Json.chars s))
  | JObj fields => ret (rev (map (fun kv => JStr kv.1) fields))
  | _ => raise TypeError
  end.

(** [Path(x)] *)
Definition to_path (x : json) : M path :=
  match x with
  | JStr s => ret (PurePath.parse s)
  | _ => raise TypeError
  end.

(** [json.loads(text)] and [json.dumps(x, indent=2)] *)
Definition json_loads (c : content) : M json :=
  match c with
  | Json j => ret j
  | Raw _ => raise JSONDecodeError
  end.

Definition json_dumps (x : json) : content := Json x.

(** [p.with_name(name)]: the root has no name to replace. The new names the
    program builds are never empty and hold no separator. *)
Definition with_name (p : path) (nm : string) : M path :=
  match p with
  | [] => raise ValueError
  | _ => ret (PurePath.parent p // nm)
  end.

(** [datetime.datetime.now().strftime("%Y%m%d%H%M%S")] *)
Definition now_strftime `{Platform} : M string :=
  fun w => Return (strftime_now (clock w)) (tick w).

(** [datetime.datetime.utcnow().isoformat()] *)
Definition utcnow_isoformat `{Platform} : M string :=
  fun w => Return (utcnow_iso (clock w)) (tick w).

End Py.

(** ** The program *)

Section Program.
Context `{Platform}.

Definition load_log (target_dir : path) : M json :=
  let p := target_dir // LOG_FILE in
  present <- Os.path_exists p;;
  if present then
    text <- Os.read_text p;;
    Py.json_loads text
  else ret (JObj [("moves", JArr [])]).

Definition save_log (target_dir : path) (data : json) : M unit :=
  let p := target_dir // LOG_FILE in
  Os.write_text p (Py.json_dumps data).

Definition ensure_folder (p : path) (name : string) : M path :=
  let folder := p // name in
  Os.mkdir_exist_ok folder;;
  ret folder.

Definition safe_move (src dest : path) : M path :=
  taken <- Os.path_exists dest;;
  dest <- (if taken then
             let stem := PurePath.stem dest in
             let suf := PurePath.suffix dest in
             ts <- Py.now_strftime;;
             Py.with_name dest (stem +:+ "_" +:+ ts +:+ suf)
           else ret dest);;
  Shutil.move src dest;;
  ret dest.

(** The line [organize] prints for an entry. *)
Definition announce (dry_run : bool) (name cat : string) : string :=
  (if dry_run then "DRY:" else "") +:+ " -> " +:+ name +:+ " -> " +:+ cat +:+ "/".

(** The [for item in source.iterdir()] loop; [moved] is the list built so
    far. *)
Fixpoint organize_loop (source : path) (dry_run : bool)
    (items : list path) (moved : list json) : M (list json) :=
  match items with
  | [] => ret moved
  | item :: rest =>
      if String.eqb (PurePath.name item) LOG_FILE then
        organize_loop source dry_run rest moved
      else
        d <- Os.is_dir item;;
        if d then organize_loop source dry_run rest moved
        else
          let ext := PurePath.suffix item in
          let cat := category_for ext in
          dest_folder <- ensure_folder source cat;;
          let dest := dest_folder // PurePath.name item in
          print (announce dry_run (PurePath.name item) cat);;
          if negb dry_run then
            newpath <- safe_move item dest;;
            organize_loop source dry_run rest
              (moved ++ [move_record (PurePath.str item) (PurePath.str newpath)])
          else organize_loop source dry_run rest moved
  end.

(** [source] is the resolved path. *)
Definition organize (source : path) (dry_run : bool) : M bool :=
  present <- Os.path_exists source;;
  d <- Os.is_dir source;;
  if negb present || negb d then
    print ("Source folder does not exist: " +:+ PurePath.str source);;
    ret false
  else
    log <- load_log source;;
    items <- Os.iterdir source;;
    moved <- organize_loop source dry_run items [];;
    (if negb dry_run && (match moved with [] => false | _ => true end) then
       moves <- Py.getitem log "moves";;
       moves <- Py.extend moves moved;;
       log <- Py.setitem log "moves" moves;;
       stamp <- Py.utcnow_isoformat;;
       log <- Py.setitem log "last_run" (JStr (stamp +:+ "Z"));;
       save_log source log;;
       timestamp <- Py.getitem log "last_run";;
       Os.write_text (source // "report.json")
         (Py.json_dumps (JObj [("moved_count", JNum (Z.of_nat (length moved)));
                               ("moved", JArr moved);
                               ("timestamp", timestamp)]))
     else ret tt);;
    ret true.

(** The body of the loop of [undo], for one record. *)
Definition undo_one (mv : json) : M unit :=
  to <- Py.getitem mv "to";;
  src <- Py.to_path to;;
  from <- Py.getitem mv "from";;
  dst <- Py.to_path from;;
  present <- Os.path_exists src;;
  if present then
    print ("Undo: " +:+ PurePath.str src +:+ " -> " +:+ PurePath.str dst);;
    Os.makedirs (PurePath.parent dst);;
    safe_move src dst;;
    ret tt
  else print ("Skipped (target gone): " +:+ PurePath.str src).

(** The [for mv in ...] loop of [undo] over the records it is given, in the
    order given. *)
Fixpoint undo_loop (records : list json) : M unit :=
  match records with
  | [] => ret tt
  | mv :: rest => undo_one mv;; undo_loop rest
  end.

(** [source] is the resolved path. *)
Definition undo (source : path) : M unit :=
  log <- load_log source;;
  recorded <- Py.get log "moves";;
  if negb (Json.truthy recorded) then print "No recorded moves to undo."
  else
    moves <- Py.getitem log "moves";;
    records <- Py.reversed moves;;
    undo_loop records;;
    Os.write_text (source // LOG_FILE)
      (Py.json_dumps (JObj [("moves", JArr [])]));;
    print "Undo complete.".

(** [main], from the parsed arguments on: [source] is
    [Path(args.source).expanduser()], and the three flags are [args.undo],
    [args.preview] and [args.dry_run]. *)
Definition main (source : path) (undo_flag preview dry_run : bool) : M unit :=
  if undo_flag then undo source
  else if preview then
    print "Preview:";;
    organize source true;;
    ret tt
  else
    organize source dry_run;;
    ret tt.

End Program.

(** * Scenarios and specification predicates *)

(** The paths a record of the log names, as [undo] reads them: [to] is where
    the file is now, [from] is where it goes back. *)
Definition record_paths (mv : json) : option (path * path) :=
  match mv with
  | JObj fields =>
      match Json.assoc "to" fields, Json.assoc "from" fields with
      | Some (JStr to), Some (JStr from) =>
          Some (PurePath.parse to, PurePath.parse from)
      | _, _ => None
      end
  | _ => None
  end.

(** The two lines [undo] can print for a record. *)
Definition undo_line (src dst : path) : string :=
  "Undo: " +:+ PurePath.str src +:+ " -> " +:+ PurePath.str dst.

Definition skipped_line (src : path) : string :=
  "Skipped (target gone): " +:+ PurePath.str src.

(** [line] reports an attempt on the record [mv]. *)
Definition attempt (mv : json) (line : string) : Prop :=
  ∃ src dst, record_paths mv = Some (src, dst) ∧
             (line = undo_line src dst ∨ line = skipped_line src).

(** The log [undo] leaves behind. *)
Definition cleared_log : json := JObj [("moves", JArr [])].

(** A call that prints nothing. *)
Definition quiet {A} (m : M A) : Prop :=
  ∀ w, stdout (world_of (m w)) = stdout w.

(** The lines of a pass of [undo] over records whose targets are all gone. *)
Definition skip_lines (records : list json) : list string :=
  omap (fun mv => (fun sd => skipped_line sd.1) <$> record_paths mv) records.

(** The target of the record [mv] does not exist in [m]. *)
Definition target_gone (m : gmap path node) (mv : json) : Prop :=
  ∃ src dst, record_paths mv = Some (src, dst) ∧ m !! src = None.

(** The name [safe_move] gives a file whose destination named [nm] is taken,
    with the clock reading [ts]. *)
Definition stamped_name (nm ts : string) : string :=
  PurePath.stem_of nm +:+ "_" +:+ ts +:+ PurePath.suffix_of nm.


(** A platform for the examples: a directory yields its entries in the order
    the model lists them, and the clock stands still. *)
Definition sample_platform : Platform :=
  {| listdir_order := fun names => names;
     strftime_now := fun _ => "20240101120000";
     utcnow_iso := fun _ => "2024-01-01T12:00:00";
     lower_beyond_ascii := fun s => s;
     upper_beyond_ascii := fun s => s |}.

(** The extension [.mKv] written with the Kelvin sign (U+212A, the bytes
    226, 132, 170), which [str.lower()] turns into [k], and a platform whose
    lower case knows it. *)
Definition kelvin_ext : string :=
  ".m" +:+ String (ascii_of_nat 226)
             (String (ascii_of_nat 132) (String (ascii_of_nat 170) "v")).

Definition kelvin_platform : Platform :=
  {| listdir_order := fun names => names;
     strftime_now := fun _ => "20240101120000";
     utcnow_iso := fun _ => "2024-01-01T12:00:00";
     lower_beyond_ascii :=
       fun s => if String.eqb s kelvin_ext then ".mkv" else s;
     upper_beyond_ascii := fun s => s |}.

(** The directory the examples organize, and a file system that holds it with
    the given entries (paths below the directory). *)
Definition desk : path := ["home"; "user"; "Desktop"].

Definition desktop (entries : list (path * node)) : gmap path node :=
  list_to_map
    ([([], Dir); (["home"], Dir); (["home"; "user"], Dir); (desk, Dir)]
       ++ map (fun pn => (desk ++ pn.1, pn.2)) entries).

(** A record as [organize] writes it. *)
Definition is_move_record (mv : json) : Prop :=
  ∃ from to, mv = move_record from to.

(** The shape of a log after a run of [organize]: a dict with the list of
    move records under ["moves"] and, under ["last_run"], a reading of the UTC
    clock followed by [Z]. *)
Definition log_shape `{Platform} (j : json) : Prop :=
  ∃ fields records n,
    j = JObj fields ∧
    Json.assoc "moves" fields = Some (JArr records) ∧
    Forall is_move_record records ∧
    Json.assoc "last_run" fields = Some (JStr (utcnow_iso n +:+ "Z")).

(** The reading of the log invariant under which every write of the log file,
    by [organize] or by [undo], leaves a log of that shape. *)
Definition every_written_log_has_last_run : Prop :=
  ∀ (P : Platform) (source : path) (w w' : World),
    organize source false w = Return true w' ∨ undo source w = Return tt w' →
    fs w' !! (source // LOG_FILE) ≠ fs w !! (source // LOG_FILE) →
    ∃ j, fs w' !! (source // LOG_FILE) = Some (File (Json j)) ∧ log_shape j.

(** [organize] from the point where the entries of the directory have been
    read: [names] is what the directory yielded. *)
Definition organize_listed `{Platform} (source : path) (dry_run : bool)
    (names : list string) : M bool :=
  log <- load_log source;;
  moved <- organize_loop source dry_run (map (PurePath.joinpath source) names) [];;
  (if negb dry_run && (match moved with [] => false | _ => true end) then
     moves <- Py.getitem log "moves";;
     moves <- Py.extend moves moved;;
     log <- Py.setitem log "moves" moves;;
     stamp <- Py.utcnow_isoformat;;
     log <- Py.setitem log "last_run" (JStr (stamp +:+ "Z"));;
     save_log source log;;
     timestamp <- Py.getitem log "last_run";;
     Os.write_text (source // "report.json")
       (Py.json_dumps (JObj [("moved_count", JNum (Z.of_nat (length moved)));
                             ("moved", JArr moved);
                             ("timestamp", timestamp)]))
   else ret tt);;
  ret true.

(** The record [organize] makes when it moves the entry [n] of the example
    directory into the folder of its category. *)
Definition desk_record `{Platform} (n : string) : json :=
  move_record (PurePath.str (desk // n))
    (PurePath.str (desk // category_for (PurePath.suffix_of n) // n)).

(** The value a call returned, if it returned. *)
Definition value_of {A} (o : outcome A) : option A :=
  match o with Return a _ => Some a | Raise _ _ => None end.

(** The example directory after a run of [organize] over [a.png], [b.txs]
    and [c.pdf]: the three moves, as the log holds them, and the world. *)
Definition sample_moves : list json :=
  [ move_record "/home/user/Desktop/a.png" "/home/user/Desktop/Images/a.png";
    move_record "/home/user/Desktop/b.txs" "/home/user/Desktop/Others/b.txs";
    move_record "/home/user/Desktop/c.pdf" "/home/user/Desktop/Documents/c.pdf" ].

Definition sample_log : list (string * json) :=
  [("moves", JArr sample_moves); ("last_run", JStr "2024-01-01T12:00:00Z")].

Definition organized : World :=
  mkWorld
    (desktop [(["Images"], Dir); (["Images"; "a.png"], File (Raw "A"));
              (["Others"], Dir); (["Others"; "b.txs"], File (Raw "B"));
              (["Documents"], Dir); (["Documents"; "c.pdf"], File (Raw "C"));
              ([LOG_FILE], File (Json (JObj sample_log)))])
    [] 1.

(** The same log in a directory whose category folders were emptied by
    hand. *)
Definition emptied : World :=
  mkWorld
    (desktop [(["Images"], Dir); (["Others"], Dir); (["Documents"], Dir);
              ([LOG_FILE], File (Json (JObj sample_log)))])
    [] 1.

(** The names [category_for] can return: the keys of the table and the
    fallback. *)
Definition category_names : list string :=
  map fst CATEGORIES ++ ["Others"].

(** A component a path of the model can hold: not empty, not a dot, and free
    of separators. *)
Definition plain_name (nm : string) : Prop :=
  nm ≠ "" ∧ nm ≠ "." ∧ Text.rfind "/" nm = None.

(** From [m] to [m'] nothing changed but, at most, new directories named as
    categories directly under [source]. *)
Definition only_folders_added (source : path) (m m' : gmap path node) : Prop :=
  ∀ p, m' !! p = m !! p ∨
       (m !! p = None ∧ m' !! p = Some Dir ∧
        ∃ cat, cat ∈ category_names ∧ p = source // cat).



(** [q] is the directory [source] or lies below it. *)
Definition inside (source q : path) : Prop := ∃ rest, q = source ++ rest.

(** Further example worlds: the directory with a log that does not parse,
    with a log that is a list, and with a regular file named [Others]. *)
Definition corrupt_desk : World :=
  mkWorld (desktop [([LOG_FILE], File (Raw "{")); (["a.png"], File (Raw "A"))])
    [] 0.

Definition listlog_desk : World :=
  mkWorld (desktop [([LOG_FILE], File (Json (JArr [])))]) [] 0.

Definition others_desk : World :=
  mkWorld (desktop [(["Others"], File (Raw "x"))]) [] 0.

(** The example directory at a later run: the log of the first run, and one
    new file. *)
Definition later_desk : World :=
  mkWorld (desktop [([LOG_FILE], File (Json (JObj sample_log)));
                    (["d.mp3"], File (Raw "D"))]) [] 1.

(** The directory before the run that [organized] shows the result of. *)
Definition fresh_desk : World :=
  mkWorld (desktop [(["a.png"], File (Raw "A")); (["b.txs"], File (Raw "B"));
                    (["c.pdf"], File (Raw "C"))]) [] 0.

(** The category folder of [a.png] already holds a file of that name. *)
Definition crowded_desk : World :=
  mkWorld (desktop [(["a.png"], File (Raw "new")); (["Images"], Dir);
                    (["Images"; "a.png"], File (Raw "old"))]) [] 0.

(** * Properties *)

(** ** The classifier *)

Lemma first_category_none ext table :
  (∀ cat exts, (cat, exts) ∈ table → ext ∉ exts) →
  first_category ext table = "Others".
Proof.
  induction table as [|[cat exts] rest IH]; intros Hnone; simpl; [done|].
  rewrite bool_decide_eq_false_2.
  - apply IH. intros c e Hin. apply (Hnone c e). by right.
  - apply (Hnone cat exts). by left.
Qed.

Ltac split_elem H :=
  repeat (apply elem_of_cons in H as [H | H]); [.. | by apply elem_of_nil in H].

Section Classifier.
Context `{Platform}.

(** An extension of the table is in lower case already, comes back from its
    upper-case form, and is found in its own category. *)
Lemma table_member cat exts e :
  (cat, exts) ∈ CATEGORIES → e ∈ exts →
  str_lower e = e ∧ str_lower (str_upper e) = e ∧
  first_category e CATEGORIES = cat.
Proof.
  intros Hcat He. unfold CATEGORIES in Hcat.
  split_elem Hcat; inversion Hcat; subst; clear Hcat;
    set_unfold in He; destruct_or! He; try done; subst;
    (split; [|split]); vm_compute; reflexivity.
Qed.

(** C6. [category_for] is defined on every string and looks its argument up
    in the lower case Python gives it: two strings with the same lower-case
    form get the same category; an extension whose lower-case form is in the
    set of a category gets the name of that category (so every extension of
    the table does, as written and in upper case); and an extension whose
    lower-case form is in no set gets ["Others"]. *)
Theorem category_for_contract (ext : string) :
  (∀ ext', str_lower ext' = str_lower ext →
     category_for ext' = category_for ext) ∧
  (∀ cat exts, (cat, exts) ∈ CATEGORIES → str_lower ext ∈ exts →
     category_for ext = cat) ∧
  (∀ cat exts, (cat, exts) ∈ CATEGORIES → ext ∈ exts →
     category_for ext = cat ∧ category_for (str_upper ext) = cat) ∧
  ((∀ cat exts, (cat, exts) ∈ CATEGORIES → str_lower ext ∉ exts) →
     category_for ext = "Others").
Proof.
  unfold category_for. split; [|split; [|split]].
  - by intros ext' ->.
  - intros cat exts Hcat He.
    by destruct (table_member cat exts _ Hcat He) as (_ & _ & ?).
  - intros cat exts Hcat He.
    destruct (table_member cat exts ext Hcat He) as (-> & -> & ->). done.
  - apply first_category_none.
Qed.

End Classifier.

(** ** Calls that print nothing *)

Section Frames.
Context `{Platform}.

Lemma parent_joinpath (d : path) (n : string) : PurePath.parent (d // n) = d.
Proof. apply removelast_last. Qed.

Lemma name_joinpath (d : path) (n : string) : PurePath.name (d // n) = n.
Proof. apply last_last. Qed.

Lemma joinpath_inj (d : path) (n n' : string) : d // n = d // n' → n = n'.
Proof. unfold PurePath.joinpath. intros Heq. by simplify_list_eq. Qed.

Lemma quiet_ret {A} (a : A) : quiet (ret a).
Proof. by intros w. Qed.

Lemma quiet_raise {A} (e : exn) : quiet (@raise A e).
Proof. by intros w. Qed.

Lemma quiet_bind {A B} (m : M A) (k : A → M B) :
  quiet m → (∀ a, quiet (k a)) → quiet (bind m k).
Proof.
  intros Hm Hk w. unfold bind. specialize (Hm w).
  destruct (m w) as [a w'|e w']; simpl in *; [|done].
  by rewrite Hk.
Qed.

Lemma bind_eq {A B} (m : M A) (k1 k2 : A → M B) w :
  (∀ a w', m w = Return a w' → k1 a w' = k2 a w') →
  bind m k1 w = bind m k2 w.
Proof. intros Hk. unfold bind. destruct (m w); [by apply Hk|done]. Qed.

Lemma quiet_path_exists p : quiet (Os.path_exists p).
Proof. by intros w. Qed.

Lemma quiet_mkdir_raw p : quiet (Os.mkdir_raw p).
Proof. intros w. unfold Os.mkdir_raw. by repeat case_match. Qed.

Lemma quiet_mkdir_exist_ok p : quiet (Os.mkdir_exist_ok p).
Proof.
  intros w. unfold Os.mkdir_exist_ok.
  repeat case_match; try done; apply quiet_mkdir_raw.
Qed.

Lemma quiet_makedirs_rev rp : quiet (Os.makedirs_rev rp).
Proof.
  induction rp as [|c rp IH]; intros w; simpl.
  - by repeat case_match.
  - repeat case_match; try done.
    apply quiet_bind; [done|]. intros _. apply quiet_mkdir_exist_ok.
Qed.

Lemma quiet_makedirs p : quiet (Os.makedirs p).
Proof. apply quiet_makedirs_rev. Qed.

Lemma quiet_rename_or_copy src dst : quiet (Shutil.rename_or_copy src dst).
Proof.
  intros w. unfold Shutil.rename_or_copy. repeat case_match; try done.
  apply quiet_bind; [apply quiet_makedirs|]. by intros _ w'.
Qed.

Lemma quiet_move src dst : quiet (Shutil.move src dst).
Proof.
  intros w. unfold Shutil.move.
  repeat case_match; try done; apply quiet_rename_or_copy.
Qed.

Lemma quiet_with_name p nm : quiet (Py.with_name p nm).
Proof. intros w. unfold Py.with_name. by destruct p. Qed.

Lemma quiet_safe_move src dest : quiet (safe_move src dest).
Proof.
  unfold safe_move. apply quiet_bind; [apply quiet_path_exists|].
  intros taken. apply quiet_bind.
  - destruct taken; [|apply quiet_ret].
    apply quiet_bind; [by intros w|]. intros ts. apply quiet_with_name.
  - intros d. apply quiet_bind; [apply quiet_move|]. intros _. apply quiet_ret.
Qed.

Lemma write_text_lookup p c w w' :
  Os.write_text p c w = Return tt w' → fs w' !! p = Some (File c).
Proof.
  unfold Os.write_text. intros Hw.
  repeat case_match; simplify_eq; simpl; by rewrite lookup_insert_eq.
Qed.

Lemma write_text_stdout p c w :
  stdout (world_of (Os.write_text p c w)) = stdout w.
Proof. unfold Os.write_text. by repeat case_match. Qed.

Lemma load_log_cases source w log w0 :
  load_log source w = Return log w0 →
  w0 = w ∧
  (fs w !! (source // LOG_FILE) = None ∧ log = JObj [("moves", JArr [])] ∨
   fs w !! (source // LOG_FILE) = Some (File (Json log))).
Proof.
  unfold load_log, bind, Os.path_exists, Os.read_text, Py.json_loads.
  destruct (fs w !! (source // LOG_FILE)) as [[[text|j]|]|] eqn:Hfile.
  - rewrite bool_decide_eq_true_2 by eauto. by rewrite Hfile.
  - rewrite bool_decide_eq_true_2 by eauto. rewrite Hfile.
    intros [= <- <-]. auto.
  - rewrite bool_decide_eq_true_2 by eauto. by rewrite Hfile.
  - rewrite bool_decide_eq_false_2 by (by intros [? ?]).
    intros [= <- <-]. auto.
Qed.

End Frames.

(** ** Undo *)

Section UndoProperties.
Context `{Platform}.

Lemma undo_one_paths mv src dst w :
  record_paths mv = Some (src, dst) →
  undo_one mv w =
    if bool_decide (is_Some (fs w !! src)) then
      (print (undo_line src dst);; Os.makedirs (PurePath.parent dst);;
       safe_move src dst;; ret tt) w
    else print (skipped_line src) w.
Proof.
  unfold record_paths. intros Hrec.
  destruct mv as [| | | |?|fields]; try done.
  destruct (Json.assoc "to" fields) as [[| | |to| |]|] eqn:Hto; try done.
  destruct (Json.assoc "from" fields) as [[| | |from| |]|] eqn:Hfrom; try done.
  simplify_eq. unfold undo_one, Py.getitem. rewrite Hto, Hfrom. simpl.
  unfold bind at 1 2 3 4 5. simpl.
  by destruct (bool_decide _).
Qed.

Lemma undo_one_skip mv src dst w :
  record_paths mv = Some (src, dst) → fs w !! src = None →
  undo_one mv w = Return tt (put_line (skipped_line src) w).
Proof.
  intros Hrec Hgone. rewrite (undo_one_paths _ _ _ _ Hrec).
  rewrite bool_decide_eq_false_2; [done|].
  rewrite Hgone. by intros [? ?].
Qed.

Lemma undo_one_trace mv w :
  is_Some (record_paths mv) →
  ∃ line, attempt mv line ∧
          stdout (world_of (undo_one mv w)) = stdout w ++ [line].
Proof.
  intros [[src dst] Hrec]. rewrite (undo_one_paths _ _ _ _ Hrec).
  case_bool_decide.
  - exists (undo_line src dst). split; [exists src, dst; auto|].
    unfold bind at 1. simpl.
    assert (quiet (Os.makedirs (PurePath.parent dst);; safe_move src dst;; ret tt))
      as Hq.
    { apply quiet_bind; [apply quiet_makedirs|]. intros _.
      apply quiet_bind; [apply quiet_safe_move|]. intros _. apply quiet_ret. }
    by rewrite Hq.
  - exists (skipped_line src). split; [exists src, dst; auto|]. done.
Qed.

(** The lines of a pass over [records]: one per record attempted, in the
    order of [records]; all of them when the pass returns, and at least the
    first when there is a record at all. *)
Lemma undo_loop_trace records w :
  Forall (fun mv => is_Some (record_paths mv)) records →
  ∃ lines,
    stdout (world_of (undo_loop records w)) = stdout w ++ lines ∧
    Forall2 attempt (take (length lines) records) lines ∧
    (records ≠ [] → lines ≠ []) ∧
    (∀ w', undo_loop records w = Return tt w' → length lines = length records).
Proof.
  intros Hall. revert w. induction Hall as [|mv rest Hmv Hrest IH]; intros w.
  - exists []. simpl. rewrite app_nil_r. by repeat split.
  - destruct (undo_one_trace mv w Hmv) as (line & Hline & Hout).
    simpl. unfold bind.
    destruct (undo_one mv w) as [[] w1|e w1] eqn:Hone; simpl in *.
    + destruct (IH w1) as (lines & Hout' & Hatt & _ & Hlen).
      exists (line :: lines). rewrite Hout', Hout, <- app_assoc. simpl.
      repeat split; [by constructor|done|].
      intros w' Hret. f_equal. by apply (Hlen w').
    + exists [line]. simpl. rewrite Hout.
      repeat split; [by repeat constructor|done|done].
Qed.

Lemma load_log_present source fields w :
  fs w !! (source // LOG_FILE) = Some (File (Json (JObj fields))) →
  load_log source w = Return (JObj fields) w.
Proof.
  intros Hfile. unfold load_log, bind, Os.path_exists, Os.read_text.
  rewrite Hfile. rewrite bool_decide_eq_true_2 by eauto. by rewrite Hfile.
Qed.

Lemma load_log_absent source w :
  fs w !! (source // LOG_FILE) = None →
  load_log source w = Return (JObj [("moves", JArr [])]) w.
Proof.
  intros Hfile. unfold load_log, bind, Os.path_exists.
  rewrite Hfile. rewrite bool_decide_eq_false_2; [done|]. by intros [? ?].
Qed.

(** With a recorded move, [undo] is the pass over the reversed records, then
    the write of the cleared log, then the closing line. *)
Lemma undo_recorded source fields mv records w :
  fs w !! (source // LOG_FILE) = Some (File (Json (JObj fields))) →
  Json.assoc "moves" fields = Some (JArr (mv :: records)) →
  undo source w =
    (undo_loop (rev (mv :: records));;
     Os.write_text (source // LOG_FILE) (Py.json_dumps cleared_log);;
     print "Undo complete.") w.
Proof.
  intros Hfile Hmoves. unfold undo. unfold bind at 1.
  rewrite (load_log_present _ _ _ Hfile).
  unfold bind at 1. unfold Py.get, Py.getitem. rewrite Hmoves. reflexivity.
Qed.

(** C9. When the log file is absent, or holds an empty list of moves, [undo]
    prints that there is nothing to undo and returns; the file system is the
    one it started from, the log file included. *)
Theorem undo_empty_log (source : path) (w : World) :
  (fs w !! (source // LOG_FILE) = None ∨
   ∃ fields, fs w !! (source // LOG_FILE) = Some (File (Json (JObj fields))) ∧
             Json.assoc "moves" fields = Some (JArr [])) →
  undo source w = Return tt (put_line "No recorded moves to undo." w) ∧
  fs (world_of (undo source w)) = fs w.
Proof.
  intros Hlog.
  assert (undo source w = Return tt (put_line "No recorded moves to undo." w))
    as Hrun.
  { unfold undo. unfold bind at 1.
    destruct Hlog as [Habsent|(fields & Hfile & Hmoves)].
    - by rewrite (load_log_absent _ _ Habsent).
    - rewrite (load_log_present _ _ _ Hfile).
      unfold bind, Py.get. by rewrite Hmoves. }
  by rewrite Hrun.
Qed.

(** C4. With the moves [m1; m2; m3] in the log, [undo] runs the step of [m3],
    then the step of [m2], then the step of [m1], and only then clears the
    log; the lines it prints report the attempts in that order, and a failing
    step cuts the sequence short without reordering it. *)
Theorem undo_lifo (source : path) (w : World) (fields : list (string * json))
    (m1 m2 m3 : json) :
  fs w !! (source // LOG_FILE) = Some (File (Json (JObj fields))) →
  Json.assoc "moves" fields = Some (JArr [m1; m2; m3]) →
  is_Some (record_paths m1) → is_Some (record_paths m2) →
  is_Some (record_paths m3) →
  undo source w =
    (undo_one m3;; undo_one m2;; undo_one m1;; ret tt;;
     Os.write_text (source // LOG_FILE) (Py.json_dumps cleared_log);;
     print "Undo complete.") w ∧
  ∃ l1 l2 l3, attempt m1 l1 ∧ attempt m2 l2 ∧ attempt m3 l3 ∧
    match undo source w with
    | Return _ w' => stdout w' = stdout w ++ [l3; l2; l1; "Undo complete."]
    | Raise _ w' =>
        stdout w' = stdout w ++ [l3] ∨ stdout w' = stdout w ++ [l3; l2] ∨
        stdout w' = stdout w ++ [l3; l2; l1]
    end.
Proof.
  intros Hfile Hmoves H1 H2 H3.
  rewrite (undo_recorded _ _ _ _ _ Hfile Hmoves).
  split.
  { simpl. unfold bind.
    destruct (undo_one m3 w) as [[] w3|]; [|done].
    destruct (undo_one m2 w3) as [[] w2|]; [|done].
    by destruct (undo_one m1 w2) as [[] w1|]. }
  assert (Forall (fun mv => is_Some (record_paths mv)) (rev [m1; m2; m3]))
    as Hall by (simpl; repeat constructor; done).
  destruct (undo_loop_trace _ w Hall) as (lines & Hout & Hatt & Hne & Hlen).
  change (rev [m1; m2; m3]) with [m3; m2; m1] in *.
  destruct (undo_one_trace m1 w H1) as (d1 & Hd1 & _).
  destruct (undo_one_trace m2 w H2) as (d2 & Hd2 & _).
  unfold bind at 1.
  destruct (undo_loop [m3; m2; m1] w) as [[] w1|e w1] eqn:Hloop; simpl in Hout.
  - specialize (Hlen w1 eq_refl).
    destruct lines as [|l3 [|l2 [|l1 [|]]]]; try done.
    simpl in Hatt. apply Forall2_cons in Hatt as [A3 Hatt].
    apply Forall2_cons in Hatt as [A2 Hatt].
    apply Forall2_cons in Hatt as [A1 _].
    exists l1, l2, l3. repeat split; try done.
    unfold bind.
    pose proof (write_text_stdout (source // LOG_FILE)
                  (Py.json_dumps cleared_log) w1) as Hw.
    destruct (Os.write_text _ _ w1) as [[] w2|e w2]; simpl in *.
    + rewrite Hw, Hout, <- app_assoc. done.
    + rewrite Hw, Hout. auto.
  - destruct lines as [|l3 lines]; [by destruct Hne|].
    assert (length (l3 :: lines) ≤ 3)%nat as Hshort.
    { apply Forall2_length in Hatt. rewrite length_take in Hatt.
      simpl in *. lia. }
    destruct lines as [|l2 [|l1 [|]]]; simpl in Hshort; try lia; simpl in Hatt.
    + apply Forall2_cons in Hatt as [A3 _].
      exists d1, d2, l3. repeat split; try done. rewrite Hout. auto.
    + apply Forall2_cons in Hatt as [A3 Hatt].
      apply Forall2_cons in Hatt as [A2 _].
      exists d1, l2, l3. repeat split; try done. rewrite Hout. auto.
    + apply Forall2_cons in Hatt as [A3 Hatt].
      apply Forall2_cons in Hatt as [A2 Hatt].
      apply Forall2_cons in Hatt as [A1 _].
      exists l1, l2, l3. repeat split; try done. rewrite Hout. auto.
Qed.

Lemma undo_loop_all_gone records w :
  Forall (target_gone (fs w)) records →
  undo_loop records w =
    Return tt (mkWorld (fs w) (stdout w ++ skip_lines records) (clock w)).
Proof.
  revert w. induction records as [|mv rest IH]; intros w Hall.
  - destruct w. simpl. by rewrite app_nil_r.
  - apply Forall_cons in Hall as [(src & dst & Hrec & Hgone) Hrest].
    simpl. unfold bind. rewrite (undo_one_skip _ _ _ _ Hrec Hgone).
    rewrite IH by done. unfold skip_lines. simpl. rewrite Hrec. simpl.
    by rewrite <- app_assoc.
Qed.

(** C8. In a pass of [undo], a record whose target no longer exists costs one
    warning line and nothing else, and the pass goes on with the records that
    remain. When [undo] has returned from a log with recorded moves, the log
    file holds the empty list of moves, whatever was skipped; and when every
    target is gone, [undo] does return, having changed nothing but the
    log. *)
Theorem undo_missing_targets (source : path) (w : World)
    (fields : list (string * json)) (mv : json) (records : list json) :
  fs w !! (source // LOG_FILE) = Some (File (Json (JObj fields))) →
  Json.assoc "moves" fields = Some (JArr (mv :: records)) →
  (∀ r rest src dst w1,
     record_paths r = Some (src, dst) → fs w1 !! src = None →
     undo_one r w1 = Return tt (put_line (skipped_line src) w1) ∧
     undo_loop (r :: rest) w1 =
       undo_loop rest (put_line (skipped_line src) w1)) ∧
  (∀ w', undo source w = Return tt w' →
     fs w' !! (source // LOG_FILE) = Some (File (Json cleared_log))) ∧
  (Forall (target_gone (fs w)) (mv :: records) →
     undo source w =
       Return tt
         (mkWorld (<[source // LOG_FILE := File (Json cleared_log)]> (fs w))
            (stdout w ++ skip_lines (rev (mv :: records)) ++ ["Undo complete."])
            (clock w))).
Proof.
  intros Hfile Hmoves. split; [|split].
  - intros r rest src dst w1 Hrec Hgone.
    pose proof (undo_one_skip _ _ _ _ Hrec Hgone) as Hskip.
    split; [done|]. simpl. unfold bind. by rewrite Hskip.
  - intros w'. rewrite (undo_recorded _ _ _ _ _ Hfile Hmoves).
    unfold bind. destruct (undo_loop _ w) as [[] w1|]; [|done].
    destruct (Os.write_text _ _ w1) as [[] w2|] eqn:Hwrite; [|done].
    intros [= <-]. simpl. by apply (write_text_lookup _ _ _ _ Hwrite).
  - intros Hall. rewrite (undo_recorded _ _ _ _ _ Hfile Hmoves).
    unfold bind. rewrite undo_loop_all_gone by by apply Forall_rev.
    unfold Os.write_text. simpl fs. rewrite Hfile. simpl.
    unfold print, put_line, set_fs, Py.json_dumps. simpl.
    by rewrite <- app_assoc.
Qed.

End UndoProperties.

(** ** Organize *)

Section OrganizeProperties.
Context `{Platform}.

Lemma organize_not_dir (source : path) (dry_run : bool) (w : World) :
  fs w !! source ≠ Some Dir →
  organize source dry_run w =
    Return false
      (put_line ("Source folder does not exist: " +:+ PurePath.str source) w).
Proof.
  intros Hnodir. unfold organize, bind, Os.path_exists, Os.is_dir.
  destruct (fs w !! source) as [[c|]|]; [| done |].
  - rewrite bool_decide_eq_true_2 by eauto. done.
  - rewrite bool_decide_eq_false_2; [done|]. by intros [? ?].
Qed.

(** C7. When the source path does not exist or is not a directory,
    [organize] prints the complaint, returns [False], and leaves the file
    system and the clock as they were: nothing is read, made, moved or
    written. *)
Theorem organize_invalid_source (source : path) (dry_run : bool) (w : World) :
  fs w !! source ≠ Some Dir →
  organize source dry_run w =
    Return false
      (put_line ("Source folder does not exist: " +:+ PurePath.str source) w) ∧
  fs (world_of (organize source dry_run w)) = fs w ∧
  clock (world_of (organize source dry_run w)) = clock w.
Proof.
  intros Hnodir. by rewrite (organize_not_dir _ _ _ Hnodir).
Qed.

Lemma organize_loop_cons source dry_run item rest moved :
  organize_loop source dry_run (item :: rest) moved =
    if String.eqb (PurePath.name item) LOG_FILE then
      organize_loop source dry_run rest moved
    else
      (d <- Os.is_dir item;;
       if d then organize_loop source dry_run rest moved
       else
         dest_folder <- ensure_folder source (category_for (PurePath.suffix item));;
         print (announce dry_run (PurePath.name item)
                  (category_for (PurePath.suffix item)));;
         if negb dry_run then
           newpath <- safe_move item (dest_folder // PurePath.name item);;
           organize_loop source dry_run rest
             (moved ++ [move_record (PurePath.str item) (PurePath.str newpath)])
         else organize_loop source dry_run rest moved).
Proof. reflexivity. Qed.

(** What an executing pass adds to the list of moves: records of the shape
    [organize] builds, and none only if the pass changed nothing. *)
Lemma organize_loop_moved source items acc w moved w' :
  organize_loop source false items acc w = Return moved w' →
  ∃ extra, moved = acc ++ extra ∧ Forall is_move_record extra ∧
           (extra = [] → w' = w).
Proof.
  revert acc w. induction items as [|item rest IH]; intros acc w Hrun.
  - injection Hrun as <- <-. exists []. by rewrite app_nil_r.
  - rewrite organize_loop_cons in Hrun.
    destruct (String.eqb _ _); [by apply IH|].
    unfold bind at 1 in Hrun. unfold Os.is_dir in Hrun.
    destruct (match fs w !! item with Some Dir => true | _ => false end);
      [by apply IH|].
    unfold bind at 1 in Hrun.
    destruct (ensure_folder _ _ w) as [folder w1|]; [|done].
    unfold bind at 1 in Hrun. unfold print in Hrun.
    change (negb false) with true in Hrun.
    unfold bind at 1 in Hrun. cbv beta iota in Hrun.
    destruct (safe_move _ _ _) as [newpath w2|]; [|done].
    apply IH in Hrun as (extra & -> & Hshape & _).
    exists (move_record (PurePath.str item) (PurePath.str newpath) :: extra).
    rewrite <- app_assoc. split; [done|]. split; [|done].
    constructor; [|done]. by eexists _, _.
Qed.

Lemma assoc_assign_eq k v fields :
  Json.assoc k (Json.assign k v fields) = Some v.
Proof.
  induction fields as [|[k' v'] rest IH]; simpl.
  - by rewrite String.eqb_refl.
  - destruct (String.eqb k k') eqn:Hk; simpl; rewrite ?String.eqb_refl, ?Hk; done.
Qed.

Lemma assoc_assign_ne k k' v fields :
  k ≠ k' → Json.assoc k (Json.assign k' v fields) = Json.assoc k fields.
Proof.
  intros Hne. apply String.eqb_neq in Hne.
  induction fields as [|[k0 v0] rest IH]; simpl.
  - by rewrite Hne.
  - destruct (String.eqb k' k0) eqn:Hk; simpl.
    + apply String.eqb_eq in Hk as <-. by rewrite Hne.
    + by rewrite IH.
Qed.


(** On an existing directory, [organize] is [organize_listed] on the entries
    the platform yields for it. *)
Lemma organize_on_dir source dry_run w :
  fs w !! source = Some Dir →
  organize source dry_run w =
    organize_listed source dry_run (listdir_order (Os.entries (fs w) source)) w.
Proof.
  intros Hdir. unfold organize, organize_listed.
  unfold bind at 1 2. unfold Os.path_exists, Os.is_dir. rewrite Hdir.
  rewrite bool_decide_eq_true_2 by eauto. simpl.
  apply bind_eq. intros log w0 Hload.
  apply load_log_cases in Hload as [-> _].
  unfold bind at 1. unfold Os.iterdir. by rewrite Hdir.
Qed.


End OrganizeProperties.

(** ** The collision-safe mover *)

Section MoverProperties.
Context `{Platform}.

Lemma string_length_app (a b : string) :
  String.length (a +:+ b) = String.length a + String.length b.
Proof. induction a as [|c a IH]; simpl; [done|]. by rewrite IH. Qed.

Lemma take_drop_string (i : nat) (s : string) :
  Text.take i s +:+ Text.drop i s = s.
Proof.
  revert i. induction s as [|c s IH]; intros [|i]; simpl; try done.
  change (String c (Text.take i s +:+ Text.drop i s) = String c s).
  by rewrite IH.
Qed.

Lemma stem_suffix (nm : string) :
  PurePath.stem_of nm +:+ PurePath.suffix_of nm = nm.
Proof.
  unfold PurePath.stem_of, PurePath.suffix_of.
  destruct (PurePath.suffix_index nm) as [i|].
  - apply take_drop_string.
  - clear. induction nm as [|c nm IH]; [done|].
    change (String c (nm +:+ "") = String c nm). by rewrite IH.
Qed.

(** The stamped name is never the name it was made from. *)
Lemma stamped_name_fresh (nm ts : string) : stamped_name nm ts ≠ nm.
Proof.
  unfold stamped_name. intros Heq.
  rewrite <- (stem_suffix nm) in Heq at 3.
  apply String.app_inj in Heq.
  apply (f_equal String.length) in Heq.
  rewrite !string_length_app in Heq. simpl in Heq. lia.
Qed.

(** Moving a regular file onto a path that is not a directory, in an existing
    directory. *)
Lemma move_file src d n c w :
  fs w !! src = Some (File c) → fs w !! d = Some Dir →
  fs w !! (d // n) ≠ Some Dir →
  Shutil.move src (d // n) w =
    Return tt (set_fs (fun m => <[d // n := File c]> (delete src m)) w).
Proof.
  intros Hsrc Hdir Hdest. unfold Shutil.move, Shutil.rename_or_copy.
  rewrite Hsrc, parent_joinpath, Hdir.
  by destruct (fs w !! (d // n)) as [[?|]|].
Qed.

Lemma with_name_joinpath d n nm w :
  Py.with_name (d // n) nm w = Return (d // nm) w.
Proof.
  unfold Py.with_name. rewrite parent_joinpath.
  unfold PurePath.joinpath at 1. by destruct d.
Qed.


End MoverProperties.



(** ** The shape of the log *)

Section LogProperties.
Context `{Platform}.

Lemma undo_returns source w w' :
  undo source w = Return tt w' →
  w' = put_line "No recorded moves to undo." w ∨
  fs w' !! (source // LOG_FILE) = Some (File (Json cleared_log)).
Proof.
  unfold undo. unfold bind at 1.
  destruct (load_log source w) as [log w0|] eqn:Hload; [|done].
  apply load_log_cases in Hload as [-> _].
  unfold bind at 1. destruct log as [| | | | |fields]; try done. simpl.
  destruct (Json.truthy _); simpl.
  - unfold bind.
    destruct (Json.assoc "moves" fields) as [moves|]; [|done]. unfold ret.
    destruct (Py.reversed moves w) as [records w2|]; [|done].
    destruct (undo_loop records w2) as [[] w3|]; [|done].
    destruct (Os.write_text _ _ w3) as [[] w4|] eqn:Hwrite; [|done].
    intros [= <-]. right. simpl. by apply (write_text_lookup _ _ _ _ Hwrite).
  - intros [= <-]. by left.
Qed.

Lemma cleared_log_no_last_run : ¬ log_shape cleared_log.
Proof. intros (fields & records & n & [= <-] & _ & _ & Hstamp). done. Qed.

End LogProperties.


(** ** Runs on the example directory *)

Lemma returned {A} (o : outcome A) (a : A) :
  value_of o = Some a → o = Return a (world_of o).
Proof. destruct o; simpl; [by intros [= ->]|done]. Qed.

(** Two file systems with the same listing are the same. *)
Lemma same_listing (m1 m2 : gmap path node) :
  map_to_list m1 = map_to_list m2 → m1 = m2.
Proof.
  intros Heq. rewrite <- (list_to_map_to_list m1), <- (list_to_map_to_list m2).
  by rewrite Heq.
Qed.

Lemma perm3 {A} (a b c : A) (l : list A) :
  NoDup [a; b; c] → l ≡ₚ [a; b; c] →
  l = [a; b; c] ∨ l = [a; c; b] ∨ l = [b; a; c] ∨
  l = [b; c; a] ∨ l = [c; a; b] ∨ l = [c; b; a].
Proof.
  intros Hnd Hp.
  assert (NoDup l) as Hl by (by rewrite Hp).
  pose proof (Permutation_length Hp) as Hlen.
  destruct l as [|x [|y [|z [|]]]]; try done.
  assert (x ∈ [a; b; c]) as Hx by (rewrite <- Hp; left).
  assert (y ∈ [a; b; c]) as Hy by (rewrite <- Hp; right; left).
  assert (z ∈ [a; b; c]) as Hz by (rewrite <- Hp; right; right; left).
  apply NoDup_cons in Hl as [Hxy Hl]. apply NoDup_cons in Hl as [Hyz _].
  set_unfold. destruct_or!; subst;
    first [ by (exfalso; apply Hxy; auto)
          | by (exfalso; apply Hyz; auto)
          | auto 10 ].
Qed.

Lemma perm2 {A} (a b : A) (l : list A) :
  a ≠ b → l ≡ₚ [a; b] → l = [a; b] ∨ l = [b; a].
Proof.
  intros Hne Hp.
  assert (NoDup l) as Hl.
  { rewrite Hp. apply NoDup_cons. split; [|apply NoDup_singleton].
    intros Hin. apply Hne. by apply list_elem_of_singleton in Hin. }
  pose proof (Permutation_length Hp) as Hlen.
  destruct l as [|x [|y [|]]]; try done.
  assert (x ∈ [a; b]) as Hx by (rewrite <- Hp; left).
  assert (y ∈ [a; b]) as Hy by (rewrite <- Hp; right; left).
  apply NoDup_cons in Hl as [Hxy _].
  set_unfold. destruct_or!; subst;
    first [ by (exfalso; apply Hxy; auto) | auto ].
Qed.

Section Runs.
Context {P : Platform} {faithful : FaithfulListing P}.

(** C1. In a directory that holds the files [a.png], [b.txs] and [c.pdf],
    whatever they contain and in whatever order the directory yields them, an
    executing run of [organize] returns and leaves the three files in
    [Images], [Others] and [Documents], none at the top level, with the three
    moves in the log and in the report in the order the directory was read.
    [undo] then returns, and afterwards the three files are at their first
    paths with their contents, the three folders exist and are empty, and the
    only other new entries are the log, which holds no moves, and the report,
    which is as [organize] wrote it. *)
Theorem organize_undo_round_trip (ca cb cc : content) (out : list string) (t : nat) :
  ∃ w1 w2 order,
    order ≡ₚ ["a.png"; "b.txs"; "c.pdf"] ∧
    organize desk false
      (mkWorld (desktop [(["a.png"], File ca); (["b.txs"], File cb);
                         (["c.pdf"], File cc)]) out t) = Return true w1 ∧
    delete (desk // "report.json") (delete (desk // LOG_FILE) (fs w1)) =
      desktop [(["Images"], Dir); (["Images"; "a.png"], File ca);
               (["Others"], Dir); (["Others"; "b.txs"], File cb);
               (["Documents"], Dir); (["Documents"; "c.pdf"], File cc)] ∧
    fs w1 !! (desk // LOG_FILE) =
      Some (File (Json (JObj
        [("moves", JArr (map desk_record order));
         ("last_run", JStr (utcnow_iso t +:+ "Z"))]))) ∧
    fs w1 !! (desk // "report.json") =
      Some (File (Json (JObj
        [("moved_count", JNum 3);
         ("moved", JArr (map desk_record order));
         ("timestamp", JStr (utcnow_iso t +:+ "Z"))]))) ∧
    undo desk w1 = Return tt w2 ∧
    delete (desk // "report.json") (delete (desk // LOG_FILE) (fs w2)) =
      desktop [(["a.png"], File ca); (["b.txs"], File cb); (["c.pdf"], File cc);
               (["Images"], Dir); (["Others"], Dir); (["Documents"], Dir)] ∧
    fs w2 !! (desk // LOG_FILE) = Some (File (Json cleared_log)) ∧
    fs w2 !! (desk // "report.json") = fs w1 !! (desk // "report.json").
Proof.
  set (w0 := mkWorld _ out t).
  rewrite (organize_on_dir desk false w0) by (vm_compute; reflexivity).
  assert (Os.entries (fs w0) desk = ["b.txs"; "a.png"; "c.pdf"]) as ->
    by (vm_compute; reflexivity).
  match goal with
  | |- ∃ w1 w2 order, _ ∧ ?o = _ ∧ _ =>
      exists (world_of o), (world_of (undo desk (world_of o))),
             (listdir_order ["b.txs"; "a.png"; "c.pdf"])
  end.
  split; [rewrite listdir_order_perm; apply perm_swap|].
  destruct (perm3 "b.txs" "a.png" "c.pdf" (listdir_order ["b.txs"; "a.png"; "c.pdf"]))
    as [-> | [-> | [-> | [-> | [-> | ->]]]]];
    [compute_done | apply listdir_order_perm | ..].
  all: split; [apply returned; vm_compute; reflexivity|].
  all: split; [apply same_listing; vm_compute; reflexivity|].
  all: split; [vm_compute; reflexivity|].
  all: split; [vm_compute; reflexivity|].
  all: split; [apply returned; vm_compute; reflexivity|].
  all: split; [apply same_listing; vm_compute; reflexivity|].
  all: split; vm_compute; reflexivity.
Qed.

(** C2, against the code. A dry run over a directory that holds [a.png]
    returns [True] and leaves the file where it was, but it has made the
    folder [Images]: [ensure_folder] runs before the test of [dry_run]. *)
Theorem dry_run_makes_folder (c : content) (out : list string) (t : nat) :
  ∃ w1,
    organize desk true (mkWorld (desktop [(["a.png"], File c)]) out t)
      = Return true w1 ∧
    desktop [(["a.png"], File c)] !! (desk // "Images") = None ∧
    fs w1 = desktop [(["a.png"], File c); (["Images"], Dir)] ∧
    stdout w1 = out ++ ["DRY: -> a.png -> Images/"].
Proof.
  set (w0 := mkWorld _ out t).
  rewrite (organize_on_dir desk true w0) by (vm_compute; reflexivity).
  assert (Os.entries (fs w0) desk = ["a.png"]) as ->
    by (vm_compute; reflexivity).
  rewrite (proj1 (Permutation_singleton_r _ _) (listdir_order_perm ["a.png"])).
  match goal with
  | |- ∃ w1, ?o = _ ∧ _ => exists (world_of o)
  end.
  split; [apply returned; vm_compute; reflexivity|].
  split; [vm_compute; reflexivity|].
  split; [apply same_listing; vm_compute; reflexivity|].
  vm_compute; reflexivity.
Qed.

(** C3, against the code. The loop of [organize] passes over the entry named
    as the log without classifying it. The report has no such guard: in a
    directory that holds the log and the report of an earlier run, an
    executing run classifies [report.json] as code, moves it to
    [Code/report.json] and records that move in the log. *)
Theorem report_is_organized (r : content) (out : list string) (t : nat) :
  (∀ source dry_run rest moved,
     organize_loop source dry_run (source // LOG_FILE :: rest) moved =
       organize_loop source dry_run rest moved) ∧
  ∃ w1,
    organize desk false
      (mkWorld (desktop [([LOG_FILE], File (Json cleared_log));
                         (["report.json"], File r)]) out t) = Return true w1 ∧
    fs w1 !! (desk // "Code" // "report.json") = Some (File r) ∧
    stdout w1 = out ++ [" -> report.json -> Code/"] ∧
    fs w1 !! (desk // LOG_FILE) =
      Some (File (Json (JObj
        [("moves", JArr [move_record "/home/user/Desktop/report.json"
                           "/home/user/Desktop/Code/report.json"]);
         ("last_run", JStr (utcnow_iso t +:+ "Z"))]))).
Proof.
  split.
  { intros source dry_run rest moved. rewrite organize_loop_cons.
    by rewrite name_joinpath, String.eqb_refl. }
  set (w0 := mkWorld _ out t).
  rewrite (organize_on_dir desk false w0) by (vm_compute; reflexivity).
  assert (Os.entries (fs w0) desk = ["report.json"; LOG_FILE]) as ->
    by (vm_compute; reflexivity).
  destruct (perm2 "report.json" LOG_FILE (listdir_order ["report.json"; LOG_FILE]))
    as [-> | ->]; [done | apply listdir_order_perm | ..].
  all: match goal with
       | |- ∃ w1, ?o = _ ∧ _ => exists (world_of o)
       end.
  all: split; [apply returned; vm_compute; reflexivity|].
  all: split; [vm_compute; reflexivity|].
  all: split; vm_compute; reflexivity.
Qed.

End Runs.

(** ** The properties at work on the example directory *)

Lemma sample_listing : FaithfulListing sample_platform.
Proof. intros names. reflexivity. Qed.

Lemma category_for_contract_witness :
  category_for (H := sample_platform) ".PNG" = "Images" ∧
  category_for (H := sample_platform) ".txs" = "Others" ∧
  category_for (H := kelvin_platform) kelvin_ext = "Video".
Proof.
  split; [|split].
  - apply (proj1 (proj2 (category_for_contract (H := sample_platform) ".PNG"))
             "Images"
             (list_to_set [".png"; ".jpg"; ".jpeg"; ".gif"; ".bmp"; ".svg"; ".webp"])).
    + left.
    + vm_compute. set_solver.
  - apply (proj2 (proj2 (proj2
             (category_for_contract (H := sample_platform) ".txs")))).
    intros cat exts Hcat. unfold CATEGORIES in Hcat.
    split_elem Hcat; inversion Hcat; subst; vm_compute; set_solver.
  - apply (proj1 (proj2 (category_for_contract (H := kelvin_platform) kelvin_ext))
             "Video" (list_to_set [".mp4"; ".mkv"; ".mov"; ".avi"])).
    + do 5 right. left.
    + vm_compute. set_solver.
Defined.

Lemma organize_undo_round_trip_witness :
  ∃ w1 w2 order,
    order ≡ₚ ["a.png"; "b.txs"; "c.pdf"] ∧
    organize (H := sample_platform) desk false
      (mkWorld (desktop [(["a.png"], File (Raw "A")); (["b.txs"], File (Raw "B"));
                         (["c.pdf"], File (Raw "C"))]) [] 0) = Return true w1 ∧
    delete (desk // "report.json") (delete (desk // LOG_FILE) (fs w1)) =
      desktop [(["Images"], Dir); (["Images"; "a.png"], File (Raw "A"));
               (["Others"], Dir); (["Others"; "b.txs"], File (Raw "B"));
               (["Documents"], Dir); (["Documents"; "c.pdf"], File (Raw "C"))] ∧
    fs w1 !! (desk // LOG_FILE) =
      Some (File (Json (JObj
        [("moves", JArr (map (desk_record (H := sample_platform)) order));
         ("last_run", JStr "2024-01-01T12:00:00Z")]))) ∧
    fs w1 !! (desk // "report.json") =
      Some (File (Json (JObj
        [("moved_count", JNum 3);
         ("moved", JArr (map (desk_record (H := sample_platform)) order));
         ("timestamp", JStr "2024-01-01T12:00:00Z")]))) ∧
    undo (H := sample_platform) desk w1 = Return tt w2 ∧
    delete (desk // "report.json") (delete (desk // LOG_FILE) (fs w2)) =
      desktop [(["a.png"], File (Raw "A")); (["b.txs"], File (Raw "B"));
               (["c.pdf"], File (Raw "C"));
               (["Images"], Dir); (["Others"], Dir); (["Documents"], Dir)] ∧
    fs w2 !! (desk // LOG_FILE) = Some (File (Json cleared_log)) ∧
    fs w2 !! (desk // "report.json") = fs w1 !! (desk // "report.json").
Proof.
  apply (organize_undo_round_trip (P := sample_platform)
           (faithful := sample_listing) (Raw "A") (Raw "B") (Raw "C") [] 0).
Defined.

Lemma undo_empty_log_witness :
  undo (H := sample_platform) desk
    (mkWorld (desktop [(["a.png"], File (Raw "A"))]) [] 0) =
    Return tt (put_line "No recorded moves to undo."
                 (mkWorld (desktop [(["a.png"], File (Raw "A"))]) [] 0)).
Proof.
  apply (undo_empty_log (H := sample_platform)).
  left. vm_compute. reflexivity.
Defined.

Lemma organize_invalid_source_witness :
  organize (H := sample_platform) ["nowhere"] false organized =
    Return false (put_line "Source folder does not exist: /nowhere" organized).
Proof.
  apply (organize_invalid_source (H := sample_platform) ["nowhere"] false organized).
  vm_compute. discriminate.
Defined.

Lemma undo_lifo_witness :
  stdout (world_of (undo (H := sample_platform) desk organized)) =
    [ "Undo: /home/user/Desktop/Documents/c.pdf -> /home/user/Desktop/c.pdf";
      "Undo: /home/user/Desktop/Others/b.txs -> /home/user/Desktop/b.txs";
      "Undo: /home/user/Desktop/Images/a.png -> /home/user/Desktop/a.png";
      "Undo complete." ].
Proof.
  destruct (undo_lifo (H := sample_platform) desk organized sample_log
              (move_record "/home/user/Desktop/a.png" "/home/user/Desktop/Images/a.png")
              (move_record "/home/user/Desktop/b.txs" "/home/user/Desktop/Others/b.txs")
              (move_record "/home/user/Desktop/c.pdf" "/home/user/Desktop/Documents/c.pdf"))
    as [Hsteps _].
  - vm_compute. reflexivity.
  - reflexivity.
  - vm_compute. eauto.
  - vm_compute. eauto.
  - vm_compute. eauto.
  - rewrite Hsteps. vm_compute. reflexivity.
Defined.

Lemma undo_missing_targets_witness :
  undo (H := sample_platform) desk emptied =
    Return tt
      (mkWorld (<[desk // LOG_FILE := File (Json cleared_log)]> (fs emptied))
         [ "Skipped (target gone): /home/user/Desktop/Documents/c.pdf";
           "Skipped (target gone): /home/user/Desktop/Others/b.txs";
           "Skipped (target gone): /home/user/Desktop/Images/a.png";
           "Undo complete." ]
         1).
Proof.
  destruct (undo_missing_targets (H := sample_platform) desk emptied sample_log
              (move_record "/home/user/Desktop/a.png" "/home/user/Desktop/Images/a.png")
              [ move_record "/home/user/Desktop/b.txs" "/home/user/Desktop/Others/b.txs";
                move_record "/home/user/Desktop/c.pdf" "/home/user/Desktop/Documents/c.pdf" ])
    as (_ & _ & Hall).
  - vm_compute. reflexivity.
  - reflexivity.
  - apply Hall. repeat constructor; eexists _, _; (split; [reflexivity|]);
      vm_compute; reflexivity.
Defined.

(** C10, as stated, fails: the log [undo] writes has no ["last_run"]. *)
Lemma undo_clear_drops_last_run : ¬ every_written_log_has_last_run.
Proof.
  intros Hclaim.
  destruct (Hclaim sample_platform desk organized
              (world_of (undo (H := sample_platform) desk organized)))
    as (j & Hfile & Hshape).
  - right. apply returned. vm_compute. reflexivity.
  - vm_compute. discriminate.
  - assert (j = cleared_log) as ->.
    { assert (fs (world_of (undo (H := sample_platform) desk organized))
                !! (desk // LOG_FILE) = Some (File (Json cleared_log))) as Hnow
        by (vm_compute; reflexivity).
      rewrite Hnow in Hfile. by injection Hfile as <-. }
    by apply (cleared_log_no_last_run (H := sample_platform)).
Qed.

Lemma dry_run_makes_folder_witness :
  ∃ w1,
    organize (H := sample_platform) desk true
      (mkWorld (desktop [(["a.png"], File (Raw "A"))]) [] 0) = Return true w1 ∧
    desktop [(["a.png"], File (Raw "A"))] !! (desk // "Images") = None ∧
    fs w1 = desktop [(["a.png"], File (Raw "A")); (["Images"], Dir)] ∧
    stdout w1 = [] ++ ["DRY: -> a.png -> Images/"].
Proof.
  apply (dry_run_makes_folder (P := sample_platform)
           (faithful := sample_listing)).
Defined.

Lemma report_is_organized_witness :
  ∃ w1,
    organize (H := sample_platform) desk false
      (mkWorld (desktop [([LOG_FILE], File (Json cleared_log));
                         (["report.json"], File (Raw "old report"))]) [] 7)
      = Return true w1 ∧
    fs w1 !! (desk // "Code" // "report.json") = Some (File (Raw "old report")).
Proof.
  destruct (report_is_organized (P := sample_platform)
              (faithful := sample_listing) (Raw "old report") [] 7)
    as (_ & w1 & Hrun & Hmoved & _).
  exists w1. split; [exact Hrun | exact Hmoved].
Defined.

(** * Further properties of the code *)

(** ** The category table *)

(** X1. No extension is in the sets of two categories, so the order of the table
    never decides a classification. *)
Theorem categories_disjoint (c1 c2 : string) (e1 e2 : gset string) (ext : string) :
  (c1, e1) ∈ CATEGORIES → (c2, e2) ∈ CATEGORIES →
  ext ∈ e1 → ext ∈ e2 → c1 = c2.
Proof.
  intros H1 H2 Hin1 Hin2.
  destruct (table_member (H := sample_platform) c1 e1 ext H1 Hin1)
    as (_ & _ & <-).
  by destruct (table_member (H := sample_platform) c2 e2 ext H2 Hin2)
    as (_ & _ & <-).
Qed.

Lemma first_category_range ext table :
  first_category ext table ∈ map fst table ++ ["Others"].
Proof.
  induction table as [|[cat exts] rest IH]; simpl.
  - left.
  - destruct (bool_decide _); [left|by right].
Qed.

Lemma category_for_names `{Platform} (ext : string) :
  category_for ext ∈ category_names.
Proof. apply (first_category_range (str_lower ext) CATEGORIES). Qed.

Lemma category_for_other `{Platform} (ext : string) :
  category_for ext ≠ LOG_FILE ∧ category_for ext ≠ "report.json".
Proof.
  pose proof (category_for_names ext) as Hin.
  unfold category_names, CATEGORIES in Hin. simpl in Hin.
  set_unfold. destruct_or! Hin; try done; rewrite Hin; done.
Qed.

(** X2. Whatever the extension, [category_for] returns one of seven names, none
    of which is the name of the log or of the report. *)
Theorem category_for_range `{Platform} (ext : string) :
  category_for ext ∈ category_names ∧
  category_for ext ≠ LOG_FILE ∧ category_for ext ≠ "report.json".
Proof.
  split; [apply category_for_names|apply category_for_other].
Qed.

(** ** The move log *)

Section LogFile.
Context `{Platform}.

Lemma load_log_json target_dir data w :
  fs w !! (target_dir // LOG_FILE) = Some (File (Json data)) →
  load_log target_dir w = Return data w.
Proof.
  intros Hfile. unfold load_log, bind, Os.path_exists, Os.read_text.
  rewrite Hfile. rewrite bool_decide_eq_true_2 by eauto. by rewrite Hfile.
Qed.

(** X4. A log that does not parse stops [organize] and [undo] with the parse
    error before anything is printed, made, moved or written. *)
Theorem corrupt_log_aborts (source : path) (dry_run : bool) (text : string)
    (w : World) :
  fs w !! source = Some Dir →
  fs w !! (source // LOG_FILE) = Some (File (Raw text)) →
  organize source dry_run w = Raise JSONDecodeError w ∧
  undo source w = Raise JSONDecodeError w.
Proof.
  intros Hdir Hlog.
  assert (load_log source w = Raise JSONDecodeError w) as Hload.
  { unfold load_log, bind, Os.path_exists, Os.read_text.
    rewrite Hlog. rewrite bool_decide_eq_true_2 by eauto. by rewrite Hlog. }
  split.
  - rewrite (organize_on_dir _ _ _ Hdir). unfold organize_listed.
    unfold bind at 1. by rewrite Hload.
  - unfold undo. unfold bind at 1. by rewrite Hload.
Qed.

End LogFile.

(** ** Folders *)

Section Folders.
Context `{Platform}.

Lemma ensure_folder_cases p name w :
  match fs w !! (p // name) with
  | Some Dir => ensure_folder p name w = Return (p // name) w
  | Some (File _) => ensure_folder p name w = Raise FileExistsError w
  | None =>
      match fs w !! p with
      | Some Dir =>
          ensure_folder p name w =
            Return (p // name) (set_fs (insert (p // name) Dir) w)
      | Some (File _) => ensure_folder p name w = Raise NotADirectoryError w
      | None => ensure_folder p name w = Raise FileNotFoundError w
      end
  end.
Proof.
  unfold ensure_folder, bind, Os.mkdir_exist_ok, Os.mkdir_raw.
  rewrite parent_joinpath.
  destruct (fs w !! (p // name)) as [[?|]|] eqn:Hfolder; try done.
  assert (p // name ≠ []) as Hne by (unfold PurePath.joinpath; by destruct p).
  destruct (p // name) eqn:Hp; [done|].
  by destruct (fs w !! p) as [[?|]|].
Qed.

(** X5. When [ensure_folder] returns, it returns [path / name], that path is a
    directory, no other path has changed, and a second call returns the same
    path and changes nothing. *)
Theorem ensure_folder_idempotent (p : path) (name : string) (w w' : World)
    (folder : path) :
  ensure_folder p name w = Return folder w' →
  folder = p // name ∧
  fs w' !! folder = Some Dir ∧
  (∀ q, q ≠ folder → fs w' !! q = fs w !! q) ∧
  ensure_folder p name w' = Return folder w'.
Proof.
  intros Hrun. pose proof (ensure_folder_cases p name w) as Hcases.
  destruct (fs w !! (p // name)) as [[?|]|] eqn:Hfolder.
  - rewrite Hcases in Hrun. done.
  - rewrite Hcases in Hrun. injection Hrun as <- <-.
    by repeat split.
  - destruct (fs w !! p) as [[?|]|] eqn:Hp; rewrite Hcases in Hrun; try done.
    injection Hrun as <- <-. simpl.
    split; [done|]. split; [apply lookup_insert_eq|].
    split; [intros q Hq; by rewrite lookup_insert_ne|].
    pose proof (ensure_folder_cases p name
                  (set_fs (insert (p // name) Dir) w)) as Hagain.
    simpl in Hagain. by rewrite lookup_insert_eq in Hagain.
Qed.

Lemma only_folders_added_refl source m : only_folders_added source m m.
Proof. intros p. by left. Qed.

Lemma only_folders_added_trans source m1 m2 m3 :
  only_folders_added source m1 m2 → only_folders_added source m2 m3 →
  only_folders_added source m1 m3.
Proof.
  intros H12 H23 p. destruct (H23 p) as [Heq|(Hnone & Hdir & Hcat)].
  - rewrite Heq. apply H12.
  - destruct (H12 p) as [Heq|(_ & Hdir' & _)].
    + right. by rewrite <- Heq.
    + rewrite Hdir' in Hnone. done.
Qed.

Lemma ensure_category_folder source ext w :
  only_folders_added source (fs w)
    (fs (world_of (ensure_folder source (category_for ext) w))) ∧
  clock (world_of (ensure_folder source (category_for ext) w)) = clock w ∧
  stdout (world_of (ensure_folder source (category_for ext) w)) = stdout w.
Proof.
  pose proof (ensure_folder_cases source (category_for ext) w) as Hcases.
  destruct (fs w !! (source // category_for ext)) as [[?|]|] eqn:Hfolder;
    [rewrite Hcases; split; [apply only_folders_added_refl|done] ..|].
  destruct (fs w !! source) as [[?|]|];
    rewrite Hcases; (split; [|done]); try apply only_folders_added_refl.
  intros p. simpl. destruct (decide (p = source // category_for ext)) as [->|Hne].
  - right. rewrite lookup_insert_eq. repeat split; try done.
    exists (category_for ext). split; [apply category_for_names|done].
  - left. by rewrite lookup_insert_ne.
Qed.

End Folders.

(** ** More on organize *)

Section OrganizeMore.
Context `{Platform}.

Lemma load_log_world source w : world_of (load_log source w) = w.
Proof.
  unfold load_log, bind, Os.path_exists, Os.read_text, Py.json_loads.
  destruct (bool_decide _); [|done].
  by destruct (fs w !! (source // LOG_FILE)) as [[[?|?]|]|].
Qed.

Lemma dry_loop_frame source items moved w o :
  organize_loop source true items moved w = o →
  only_folders_added source (fs w) (fs (world_of o)) ∧
  clock (world_of o) = clock w.
Proof.
  revert w. induction items as [|item rest IH]; intros w Ho.
  - subst o. simpl. split; [apply only_folders_added_refl|done].
  - rewrite organize_loop_cons in Ho.
    destruct (String.eqb _ _); [by apply IH|].
    unfold bind at 1 in Ho. unfold Os.is_dir in Ho.
    destruct (match fs w !! item with Some Dir => true | _ => false end);
      [by apply IH|].
    unfold bind at 1 in Ho.
    destruct (ensure_category_folder source (PurePath.suffix item) w)
      as (Hadded & Hclock & _).
    destruct (ensure_folder _ _ w) as [folder w1|e w1]; simpl in *;
      [|by subst o].
    unfold bind at 1 in Ho. unfold print in Ho.
    change (negb true) with false in Ho. cbv iota in Ho.
    apply IH in Ho as (Hadded' & Hclock'). simpl in *.
    split; [by eapply only_folders_added_trans|by rewrite Hclock'].
Qed.

(** X6. A dry run changes no entry that existed and reads no clock: whatever its
    outcome, the file system it leaves differs from the one it found at most
    by new directories named as categories directly under the source. *)
Theorem dry_run_adds_only_folders (source : path) (w : World) :
  only_folders_added source (fs w) (fs (world_of (organize source true w))) ∧
  clock (world_of (organize source true w)) = clock w.
Proof.
  remember (organize source true w) as o eqn:Ho. symmetry in Ho.
  assert (fs w !! source = Some Dir ∨ fs w !! source ≠ Some Dir)
    as [Hdir|Hnodir] by (destruct (fs w !! source) as [[?|]|]; auto).
  - rewrite (organize_on_dir _ _ _ Hdir) in Ho. unfold organize_listed in Ho.
    unfold bind at 1 in Ho. pose proof (load_log_world source w) as Hload.
    destruct (load_log source w) as [log w0|e w0]; simpl in Hload; subst w0;
      [|subst o; split; [apply only_folders_added_refl|done]].
    unfold bind at 1 in Ho.
    destruct (dry_loop_frame source
                (map (PurePath.joinpath source)
                   (listdir_order (Os.entries (fs w) source))) [] w _ eq_refl)
      as (Hadded & Hclock).
    destruct (organize_loop _ _ _ _ w) as [moved w1|e w1]; simpl in *;
      by subst o.
  - rewrite (organize_not_dir _ _ _ Hnodir) in Ho. subst o. simpl.
    split; [apply only_folders_added_refl|done].
Qed.

(** X7. A regular file whose category folder cannot be made, because a regular
    file already has that name (a file called [Others], say, which is its
    own category), stops the loop with [FileExistsError] at that entry, in a
    dry run as well; nothing is changed by the failing step and the entries
    after it are not visited. *)
Theorem category_named_file_stops_loop (source item : path) (dry_run : bool)
    (rest : list path) (moved : list json) (c c' : content) (w : World) :
  PurePath.name item ≠ LOG_FILE →
  fs w !! item = Some (File c) →
  fs w !! (source // category_for (PurePath.suffix item)) = Some (File c') →
  organize_loop source dry_run (item :: rest) moved w = Raise FileExistsError w.
Proof.
  intros Hname Hitem Hclash. rewrite organize_loop_cons.
  apply String.eqb_neq in Hname. rewrite Hname.
  unfold bind at 1. unfold Os.is_dir. rewrite Hitem.
  unfold bind at 1.
  pose proof (ensure_folder_cases source
                (category_for (PurePath.suffix item)) w) as Hcases.
  rewrite Hclash in Hcases. by rewrite Hcases.
Qed.

Lemma entries_exist (m : gmap path node) (d : path) (n : string) :
  n ∈ Os.entries m d → is_Some (m !! (d // n)).
Proof.
  unfold Os.entries. intros Hin.
  apply list_elem_of_omap in Hin as ([p x] & Hp & Hname).
  apply elem_of_map_to_list in Hp. unfold Os.entry_name in Hname.
  simpl in Hname. case_bool_decide as Htake; [|done].
  destruct (drop (length d) p) as [|n' [|]] eqn:Hdrop; try done.
  injection Hname as ->.
  assert (p = d // n) as <-; [|by eexists].
  rewrite <- (take_drop (length d) p). by rewrite Htake, Hdrop.
Qed.

Lemma organize_loop_nothing source dry_run names moved w :
  (∀ n, n ∈ names → n = LOG_FILE ∨ fs w !! (source // n) = Some Dir) →
  organize_loop source dry_run (map (PurePath.joinpath source) names) moved w
    = Return moved w.
Proof.
  induction names as [|n rest IH]; intros Hall; [done|].
  simpl map. rewrite organize_loop_cons, name_joinpath.
  destruct (Hall n) as [-> | Hdir]; [left|..].
  - rewrite String.eqb_refl. apply IH. intros m Hm. apply Hall. by right.
  - destruct (String.eqb n LOG_FILE);
      [|unfold bind; unfold Os.is_dir; rewrite Hdir];
      apply IH; intros m Hm; apply Hall; by right.
Qed.

End OrganizeMore.

Section NothingToDo.
Context {P : Platform} {faithful : FaithfulListing P}.

(** X8. In a directory that holds no regular file besides, possibly, a log that
    parses (and no directory named as the log), [organize] returns [True] and leaves the world exactly as it was:
    subdirectories are passed over, nothing is printed, and neither log nor
    report is written. *)
Theorem organize_nothing_to_do (source : path) (dry_run : bool) (w : World) :
  fs w !! source = Some Dir →
  fs w !! (source // LOG_FILE) ≠ Some Dir →
  (∀ n c, fs w !! (source // n) = Some (File c) →
          n = LOG_FILE ∧ ∃ j, c = Json j) →
  organize source dry_run w = Return true w.
Proof.
  intros Hdir Hnolog Hfiles. rewrite (organize_on_dir _ _ _ Hdir).
  unfold organize_listed. unfold bind at 1.
  assert (∃ log, load_log source w = Return log w) as [log ->].
  { destruct (fs w !! (source // LOG_FILE)) as [[c|]|] eqn:Hlog.
    - destruct (Hfiles _ _ Hlog) as (_ & j & ->).
      exists j. by apply load_log_json.
    - done.
    - eexists. by apply load_log_absent. }
  unfold bind at 1. rewrite organize_loop_nothing.
  - by destruct dry_run.
  - intros n Hn. rewrite listdir_order_perm in Hn.
    apply entries_exist in Hn as [[c|] Hn]; [left|by right].
    by destruct (Hfiles _ _ Hn).
Qed.

End NothingToDo.

(** ** Single steps of undo and organize *)

Section Steps.
Context `{Platform}.

Lemma makedirs_existing p w :
  fs w !! p = Some Dir → Os.makedirs p w = Return tt w.
Proof.
  intros Hdir. unfold Os.makedirs.
  rewrite <- (rev_involutive p) in Hdir.
  destruct (rev p) as [|c rp]; simpl in *; by rewrite Hdir.
Qed.

Lemma safe_move_free src d n c w :
  fs w !! src = Some (File c) → fs w !! d = Some Dir →
  fs w !! (d // n) = None →
  safe_move src (d // n) w =
    Return (d // n) (set_fs (fun m => <[d // n := File c]> (delete src m)) w).
Proof.
  intros Hsrc Hdir Hfree. unfold safe_move, bind, Os.path_exists.
  rewrite Hfree. rewrite bool_decide_eq_false_2 by by intros [? ?].
  simpl. rewrite (move_file src d n c); try done. by rewrite Hfree.
Qed.

Lemma safe_move_stamped src d n c w :
  fs w !! src = Some (File c) → fs w !! d = Some Dir →
  is_Some (fs w !! (d // n)) →
  fs w !! (d // stamped_name n (strftime_now (clock w))) ≠ Some Dir →
  safe_move src (d // n) w =
    Return (d // stamped_name n (strftime_now (clock w)))
      (set_fs (fun m => <[d // stamped_name n (strftime_now (clock w)) := File c]>
                          (delete src m)) (tick w)).
Proof.
  intros Hsrc Hdir Htaken Hnodir. unfold safe_move, bind, Os.path_exists.
  rewrite bool_decide_eq_true_2 by done.
  unfold Py.now_strftime.
  unfold PurePath.stem, PurePath.suffix. rewrite name_joinpath.
  fold (stamped_name n (strftime_now (clock w))).
  rewrite with_name_joinpath.
  by rewrite (move_file src d _ c (tick w)).
Qed.

(** X10. One step of [undo] on a record whose target is a regular file and whose
    origin lies in an existing directory. If the origin is free, the file
    goes back to it and nothing else changes. If the origin has been taken in
    the meantime, what is there is kept and the file comes back beside it,
    under the stamped name (provided that name is not a directory). In both
    cases the step prints its line and returns. *)
Theorem undo_one_restores (mv : json) (src d : path) (n : string)
    (c : content) (w : World) :
  record_paths mv = Some (src, d // n) →
  fs w !! src = Some (File c) →
  src ≠ d // n →
  fs w !! d = Some Dir →
  (fs w !! (d // n) = None →
     undo_one mv w =
       Return tt
         (mkWorld (<[d // n := File c]> (delete src (fs w)))
            (stdout w ++ [undo_line src (d // n)]) (clock w))) ∧
  (is_Some (fs w !! (d // n)) →
   fs w !! (d // stamped_name n (strftime_now (clock w))) ≠ Some Dir →
     undo_one mv w =
       Return tt
         (mkWorld (<[d // stamped_name n (strftime_now (clock w)) := File c]>
                     (delete src (fs w)))
            (stdout w ++ [undo_line src (d // n)]) (S (clock w))) ∧
     (<[d // stamped_name n (strftime_now (clock w)) := File c]>
        (delete src (fs w))) !! (d // n) = fs w !! (d // n)).
Proof.
  intros Hrec Hsrc Hne Hdir.
  assert (undo_one mv w =
            match safe_move src (d // n) (put_line (undo_line src (d // n)) w)
            with
            | Return _ w' => Return tt w'
            | Raise e w' => Raise e w'
            end) as ->.
  { rewrite (undo_one_paths _ _ _ _ Hrec).
    rewrite bool_decide_eq_true_2 by (by rewrite Hsrc).
    unfold bind at 1. unfold print. unfold bind at 1.
    rewrite parent_joinpath. by rewrite makedirs_existing. }
  split.
  - intros Hfree. by rewrite (safe_move_free src d n c).
  - intros Htaken Hnodir. split.
    + by rewrite (safe_move_stamped src d n c).
    + rewrite lookup_insert_ne, lookup_delete_ne; try done.
      intros Heq. apply joinpath_inj in Heq.
      by apply stamped_name_fresh in Heq.
Qed.

(** X11. One step of an executing [organize] on a regular file [source / n] that
    is not the log, in a directory where its category is free or already a
    folder and holds no entry named [n]: the folder exists afterwards, the
    file is in it under its own name, the line is printed, the record of the
    move is appended, and the loop goes on with the remaining entries. *)
Theorem organize_step_moves_file (source : path) (n : string) (c : content)
    (rest : list path) (moved : list json) (w : World) :
  n ≠ LOG_FILE →
  fs w !! source = Some Dir →
  fs w !! (source // n) = Some (File c) →
  (∀ c', fs w !! (source // category_for (PurePath.suffix_of n)) ≠ Some (File c')) →
  fs w !! (source // category_for (PurePath.suffix_of n) // n) = None →
  organize_loop source false (source // n :: rest) moved w =
    organize_loop source false rest
      (moved ++ [move_record (PurePath.str (source // n))
                   (PurePath.str (source // category_for (PurePath.suffix_of n) // n))])
      (mkWorld
         (<[source // category_for (PurePath.suffix_of n) // n := File c]>
            (delete (source // n)
               (<[source // category_for (PurePath.suffix_of n) := Dir]> (fs w))))
         (stdout w ++ [announce false n (category_for (PurePath.suffix_of n))])
         (clock w)).
Proof.
  intros Hname Hdir Hfile Hfolder Hfree.
  set (cat := category_for (PurePath.suffix_of n)) in *.
  rewrite organize_loop_cons. unfold PurePath.suffix.
  rewrite name_joinpath. fold cat.
  apply String.eqb_neq in Hname. rewrite Hname.
  unfold bind at 1. unfold Os.is_dir. rewrite Hfile.
  unfold bind at 1.
  assert (source // n ≠ source // cat) as Hitem.
  { intros Heq. rewrite <- Heq in Hfolder. by apply (Hfolder c). }
  assert (source // n ≠ source // cat // n) as Hdest.
  { intros Heq. apply (f_equal length) in Heq.
    unfold PurePath.joinpath in Heq. rewrite !length_app in Heq.
    simpl in Heq. lia. }
  pose proof (ensure_folder_cases source cat w) as Hcases.
  destruct (fs w !! (source // cat)) as [[c'|]|] eqn:Hcat.
  - by destruct (Hfolder c').
  - rewrite Hcases. unfold bind at 1. unfold print.
    change (negb false) with true. cbv iota. unfold bind at 1.
    rewrite (safe_move_free (source // n) (source // cat) n c); try done.
    unfold set_fs, put_line. simpl. by rewrite (insert_id (fs w) (source // cat) Dir).
  - rewrite Hdir in Hcases. rewrite Hcases. unfold bind at 1. unfold print.
    change (negb false) with true. cbv iota. unfold bind at 1.
    rewrite (safe_move_free (source // n) (source // cat) n c); try done.
    + simpl. by rewrite lookup_insert_ne.
    + simpl. apply lookup_insert_eq.
    + simpl. rewrite lookup_insert_ne; [done|].
      intros Heq. apply (f_equal length) in Heq.
      unfold PurePath.joinpath in Heq. rewrite !length_app in Heq.
      simpl in Heq. lia.
Qed.

End Steps.

(** ** Reading back what was logged *)

Lemma split_no_sep (c : ascii) (s : string) :
  Text.rfind c s = None → Text.split c s = [s].
Proof.
  induction s as [|d s IH]; simpl; [done|].
  destruct (Text.rfind c s); [done|].
  destruct (Ascii.eqb c d); [done|]. intros _. by rewrite IH.
Qed.

Lemma split_app_sep (c : ascii) (s t : string) :
  Text.rfind c s = None →
  Text.split c (s +:+ String c t) = s :: Text.split c t.
Proof.
  induction s as [|d s IH]; simpl.
  - intros _. by rewrite Ascii.eqb_refl.
  - destruct (Text.rfind c s); [done|].
    destruct (Ascii.eqb c d); [done|]. intros _. by rewrite IH.
Qed.

Lemma split_join (p : path) :
  p ≠ [] → Forall plain_name p → Text.split "/" (Text.join "/" p) = p.
Proof.
  induction p as [|a [|b rest] IH]; intros Hne Hplain; [done|..].
  - apply Forall_cons in Hplain as [(_ & _ & Hsep) _].
    simpl. by apply split_no_sep.
  - apply Forall_cons in Hplain as [(_ & _ & Hsep) Hrest].
    change (Text.join "/" (a :: b :: rest))
      with (a +:+ String "/" (Text.join "/" (b :: rest))).
    rewrite split_app_sep by done. by rewrite IH.
Qed.

Lemma filter_plain (p : path) :
  Forall plain_name p →
  List.filter (fun c => negb (String.eqb c "") && negb (String.eqb c ".")) p = p.
Proof.
  induction 1 as [|x l (Hx1 & Hx2 & _) _ IH]; [done|].
  simpl. apply String.eqb_neq in Hx1, Hx2. rewrite Hx1, Hx2. simpl.
  by rewrite IH.
Qed.

(** X13. A path whose components are plain names is read back from its string,
    so that [undo] finds in a record the two paths [organize] wrote into it:
    the current place under ["to"] and the place to restore under
    ["from"]. *)
Theorem record_round_trip (from to : path) :
  Forall plain_name from → Forall plain_name to →
  PurePath.parse (PurePath.str from) = from ∧
  record_paths (move_record (PurePath.str from) (PurePath.str to))
    = Some (to, from).
Proof.
  assert (∀ p, Forall plain_name p → PurePath.parse (PurePath.str p) = p)
    as Hparse.
  { intros p Hplain. unfold PurePath.parse, PurePath.str.
    change ("/" +:+ Text.join "/" p) with (String "/" (Text.join "/" p)).
    simpl Text.split. destruct p as [|a rest]; [reflexivity|].
    rewrite split_join by done.
    change (List.filter _ ("" :: ?l)) with (List.filter
      (fun c => negb (String.eqb c "") && negb (String.eqb c ".")) l).
    by apply filter_plain. }
  intros Hfrom Hto. split; [by apply Hparse|].
  unfold record_paths, move_record. simpl.
  by rewrite !Hparse.
Qed.

(** ** Logs of the wrong shape, and the entry point *)

Section Entry.
Context `{Platform}.

Lemma undo_loop_strings records w :
  records ≠ [] → Forall (fun x => ∃ s, x = JStr s) records →
  undo_loop records w = Raise TypeError w.
Proof.
  intros Hne Hall. destruct Hall as [|x l [s ->] _]; [done|]. reflexivity.
Qed.

Lemma chars_strings s : Forall (fun x => ∃ s', x = JStr s') (Json.chars s).
Proof. induction s; simpl; constructor; eauto. Qed.

(** X14. A log that parses but is not a dict makes [undo] raise
    [AttributeError]; a dict whose ["moves"] is a true value other than a
    list makes it raise [TypeError]. Either way nothing has been printed,
    moved or written, and the log is not cleared. *)
Theorem undo_rejects_ill_typed_log (source : path) (log : json) (w : World) :
  fs w !! (source // LOG_FILE) = Some (File (Json log)) →
  ((∀ fields, log ≠ JObj fields) → undo source w = Raise AttributeError w) ∧
  (∀ fields v, log = JObj fields → Json.assoc "moves" fields = Some v →
     Json.truthy v = true → (∀ records, v ≠ JArr records) →
     undo source w = Raise TypeError w).
Proof.
  intros Hfile. split.
  - intros Hnodict. unfold undo. unfold bind at 1.
    rewrite (load_log_json _ _ _ Hfile). unfold bind at 1.
    destruct log; try done. by destruct (Hnodict fields).
  - intros fields v -> Hmoves Htrue Hnolist. unfold undo. unfold bind at 1.
    rewrite (load_log_json _ _ _ Hfile). unfold bind at 1.
    unfold Py.get, Py.getitem. rewrite Hmoves. simpl. rewrite Htrue. simpl.
    unfold bind at 1 2. unfold ret.
    destruct v as [|b|n|s|records|kvs]; [done|done|done|..].
    + simpl in *. unfold ret, bind.
      rewrite undo_loop_strings; [done| |].
      * destruct s; [done|]. simpl. intros Hnil.
        by apply app_eq_nil in Hnil as [_ ?].
      * apply Forall_rev, chars_strings.
    + by destruct (Hnolist records).
    + simpl in *. unfold ret, bind.
      rewrite undo_loop_strings; [done| |].
      * destruct kvs; [done|]. simpl. intros Hnil.
        by apply app_eq_nil in Hnil as [_ ?].
      * apply Forall_rev. apply Forall_map. by apply Forall_true; eauto.
Qed.

(** X15. On a path that is not a directory and has no log under it, [main]
    returns whatever the flags are: it prints its one or two lines and leaves
    the file system and the clock as they were. *)
Theorem main_on_missing_directory (source : path)
    (undo_flag preview dry_run : bool) (w : World) :
  fs w !! source ≠ Some Dir →
  fs w !! (source // LOG_FILE) = None →
  main source undo_flag preview dry_run w =
    Return tt
      (mkWorld (fs w)
         (stdout w ++
            if undo_flag then ["No recorded moves to undo."]
            else (if preview then ["Preview:"] else []) ++
                 ["Source folder does not exist: " +:+ PurePath.str source])
         (clock w)).
Proof.
  intros Hnodir Hnolog. unfold main. destruct undo_flag.
  - unfold undo. unfold bind at 1. by rewrite (load_log_absent _ _ Hnolog).
  - destruct preview.
    + unfold bind at 1. unfold print. unfold bind at 1.
      rewrite organize_not_dir by done.
      unfold put_line. simpl. by rewrite <- app_assoc.
    + unfold bind at 1. by rewrite organize_not_dir.
Qed.

End Entry.

(** ** What organize leaves alone *)

Section Confinement.
Context `{Platform}.

Lemma write_text_frame p c w q :
  q ≠ p → fs (world_of (Os.write_text p c w)) !! q = fs w !! q.
Proof.
  intros Hq. unfold Os.write_text.
  repeat case_match; simpl; try done; by rewrite lookup_insert_ne.
Qed.

Lemma move_frame src dst w q :
  fs w !! src ≠ Some Dir →
  q ≠ src → q ≠ dst → q ≠ dst // PurePath.name src →
  fs (world_of (Shutil.move src dst w)) !! q = fs w !! q.
Proof.
  intros Hsrc Hq1 Hq2 Hq3. unfold Shutil.move, Shutil.rename_or_copy.
  destruct (fs w !! src) as [[c|]|] eqn:Hs; [|done|];
    repeat case_match; simpl; try done;
    by rewrite lookup_insert_ne, lookup_delete_ne.
Qed.

Lemma safe_move_frame src d n w q :
  fs w !! src ≠ Some Dir →
  q ≠ src → ¬ inside d q →
  fs (world_of (safe_move src (d // n) w)) !! q = fs w !! q.
Proof.
  intros Hsrc Hq Hout.
  assert (∀ rest, q ≠ d ++ rest) as Hrest
    by (intros rest ->; apply Hout; by exists rest).
  unfold safe_move. unfold bind at 1. unfold Os.path_exists.
  destruct (bool_decide _).
  - unfold bind. unfold Py.now_strftime. rewrite with_name_joinpath.
    pose proof (move_frame src
                  (d // (PurePath.stem (d // n) +:+ "_" +:+
                           strftime_now (clock w) +:+ PurePath.suffix (d // n)))
                  (tick w) q Hsrc Hq) as Hmove.
    destruct (Shutil.move _ _ (tick w)) as [[] w1|e w1]; simpl in *;
      apply Hmove; unfold PurePath.joinpath; try rewrite <- app_assoc;
      apply Hrest.
  - unfold bind, ret.
    pose proof (move_frame src (d // n) w q Hsrc Hq) as Hmove.
    destruct (Shutil.move _ _ w) as [[] w1|e w1]; simpl in *;
      apply Hmove; unfold PurePath.joinpath; try rewrite <- app_assoc;
      apply Hrest.
Qed.

Lemma ensure_folder_frame p name w q :
  q ≠ p // name →
  fs (world_of (ensure_folder p name w)) !! q = fs w !! q.
Proof.
  intros Hq. pose proof (ensure_folder_cases p name w) as Hcases.
  destruct (fs w !! (p // name)) as [[?|]|]; try by rewrite Hcases.
  destruct (fs w !! p) as [[?|]|]; rewrite Hcases; try done.
  simpl. by rewrite lookup_insert_ne.
Qed.

Lemma move_dir_into_itself src x w :
  fs w !! src = Some Dir → world_of (Shutil.move src (src // x) w) = w.
Proof.
  intros Hsrc. unfold Shutil.move, Shutil.rename_or_copy. rewrite Hsrc.
  assert (∀ l, bool_decide (take (length src) (src ++ l) = src) = true)
    as Hprefix.
  { intros l. apply bool_decide_eq_true_2. by rewrite take_app_length. }
  unfold PurePath.joinpath.
  destruct (fs w !! (src ++ [x])) as [[?|]|]; try done.
  - case_bool_decide; [done|].
    destruct (fs w !! ((src ++ [x]) ++ [PurePath.name src])) as [?|]; [done|].
    by rewrite <- app_assoc, Hprefix.
  - by rewrite Hprefix.
Qed.

Lemma safe_move_into_itself src n w :
  fs w !! src = Some Dir →
  fs (world_of (safe_move src (src // n) w)) = fs w.
Proof.
  intros Hsrc. unfold safe_move. unfold bind at 1. unfold Os.path_exists.
  destruct (bool_decide _).
  - unfold bind. unfold Py.now_strftime. rewrite with_name_joinpath.
    pose proof (move_dir_into_itself src
                  (PurePath.stem (src // n) +:+ "_" +:+
                     strftime_now (clock w) +:+ PurePath.suffix (src // n))
                  (tick w) Hsrc) as Hmove.
    destruct (Shutil.move _ _ (tick w)) as [[] w1|e w1]; simpl in *;
      by subst w1.
  - unfold bind, ret.
    pose proof (move_dir_into_itself src n w Hsrc) as Hmove.
    destruct (Shutil.move _ _ w) as [[] w1|e w1]; simpl in *; by subst w1.
Qed.

(** The loop leaves alone every path that is neither at nor below an entry
    of the source other than the log. *)
Lemma organize_loop_keeps source dry_run names moved w q o :
  (∀ n, n ≠ LOG_FILE → ¬ inside (source // n) q) →
  organize_loop source dry_run (map (PurePath.joinpath source) names) moved w
    = o →
  fs (world_of o) !! q = fs w !! q.
Proof.
  intros Hq.
  assert (∀ n, n ≠ LOG_FILE → q ≠ source // n) as Hentry.
  { intros n Hn ->. apply (Hq n Hn). exists []. by rewrite app_nil_r. }
  revert moved w. induction names as [|n names IH]; intros moved w Ho.
  { by subst o. }
  simpl map in Ho. rewrite organize_loop_cons in Ho.
  destruct (String.eqb _ _) eqn:Hname; [by apply (IH moved)|].
  rewrite name_joinpath in Hname. apply String.eqb_neq in Hname.
  unfold bind at 1 in Ho. unfold Os.is_dir in Ho.
  assert (fs w !! (source // n) = Some Dir ∨ fs w !! (source // n) ≠ Some Dir)
    as [Hd|Hnd] by (destruct (fs w !! (source // n)) as [[?|]|]; auto).
  { rewrite Hd in Ho. by apply (IH moved). }
  assert (match fs w !! (source // n) with Some Dir => true | _ => false end
          = false) as Hfalse
    by (destruct (fs w !! (source // n)) as [[?|]|]; done).
  rewrite Hfalse in Ho. clear Hfalse.
  set (cat := category_for (PurePath.suffix (source // n))) in *.
  assert (cat ≠ LOG_FILE) as Hcat by apply category_for_other.
  unfold bind at 1 in Ho.
  pose proof (ensure_folder_frame source cat w q (Hentry _ Hcat)) as Hfolder.
  pose proof (ensure_folder_cases source cat w) as Hcases.
  destruct (ensure_folder source cat w) as [folder w1|e w1] eqn:Hens;
    simpl in Hfolder; [|by subst o].
  assert (folder = source // cat) as ->.
  { destruct (fs w !! (source // cat)) as [[?|]|];
      [by rewrite Hcases in Hens| by injection Hcases as <- | ].
    destruct (fs w !! source) as [[?|]|]; by simplify_eq. }
  unfold bind at 1 in Ho. unfold print in Ho.
  destruct dry_run.
  { change (negb true) with false in Ho. cbv iota in Ho.
    apply IH in Ho. by rewrite Ho. }
  change (negb false) with true in Ho. cbv iota in Ho.
  unfold bind at 1 in Ho. rewrite name_joinpath in Ho.
  set (w2 := put_line (announce false n cat) w1) in *.
  assert (fs (world_of (safe_move (source // n) (source // cat // n) w2)) !! q
          = fs w1 !! q) as Hmove.
  { assert (fs w2 !! (source // n) = Some Dir ∨ fs w2 !! (source // n) ≠ Some Dir)
      as [Hdir|Hnodir] by (destruct (fs w2 !! (source // n)) as [[?|]|]; auto).
    - assert (source // n = source // cat) as Heq.
      { destruct (decide (source // n = source // cat)) as [|Hne]; [done|].
        simpl in Hdir.
        pose proof (ensure_folder_frame source cat w (source // n) Hne) as Hsame.
        rewrite Hens in Hsame. simpl in Hsame. by rewrite Hsame in Hdir. }
      rewrite <- Heq. rewrite safe_move_into_itself; [done|]. done.
    - change (fs w1) with (fs w2).
      apply safe_move_frame; [done|by apply Hentry|by apply Hq]. }
  destruct (safe_move _ _ w2) as [newpath w3|e w3]; simpl in Hmove.
  - apply IH in Ho. by rewrite Ho, Hmove.
  - subst o. simpl. by rewrite Hmove.
Qed.

Lemma organize_loop_frame source dry_run names moved w q o :
  ¬ inside source q →
  organize_loop source dry_run (map (PurePath.joinpath source) names) moved w
    = o →
  fs (world_of o) !! q = fs w !! q.
Proof.
  intros Hout. apply organize_loop_keeps.
  intros n _ [rest ->]. apply Hout. exists ([n] ++ rest).
  unfold PurePath.joinpath. by rewrite <- app_assoc.
Qed.

(** X16. Whatever the mode and the outcome, [organize] changes no path outside
    its source directory: folders, moved files, log and report all lie
    below it. *)
Theorem organize_stays_inside (source : path) (dry_run : bool) (w : World)
    (q : path) :
  ¬ inside source q →
  fs (world_of (organize source dry_run w)) !! q = fs w !! q.
Proof.
  intros Hout.
  assert (∀ rest, q ≠ source ++ rest) as Hrest
    by (intros rest ->; apply Hout; by exists rest).
  remember (organize source dry_run w) as o eqn:Ho. symmetry in Ho.
  assert (fs w !! source = Some Dir ∨ fs w !! source ≠ Some Dir)
    as [Hdir|Hnodir] by (destruct (fs w !! source) as [[?|]|]; auto);
    [|rewrite (organize_not_dir _ _ _ Hnodir) in Ho; by subst o].
  rewrite (organize_on_dir _ _ _ Hdir) in Ho. unfold organize_listed in Ho.
  unfold bind at 1 in Ho. pose proof (load_log_world source w) as Hload.
  destruct (load_log source w) as [log w0|e w0]; simpl in Hload; subst w0;
    [|by subst o].
  unfold bind at 1 in Ho.
  pose proof (organize_loop_frame source dry_run
                (listdir_order (Os.entries (fs w) source)) [] w q _ Hout eq_refl)
    as Hloop.
  destruct (organize_loop _ _ _ _ w) as [moved w1|e w1]; simpl in Hloop;
    [|by subst o].
  rewrite <- Hloop. clear Hloop.
  unfold bind at 1 in Ho.
  destruct (negb dry_run && _); [|by subst o].
  assert (∀ c, fs (world_of (save_log source c (tick w1))) !! q = fs w1 !! q)
    as Hsave by (intros c; apply (write_text_frame _ _ (tick w1)), Hrest).
  unfold bind at 1 2 in Ho. unfold Py.getitem at 1 in Ho.
  destruct log as [| | | | |fields]; try by subst o.
  destruct (Json.assoc "moves" fields) as [moves|]; [|by subst o].
  unfold ret at 1 in Ho. unfold bind at 1 in Ho.
  destruct moves as [| | | |records|]; try by subst o.
  simpl in Ho. unfold bind at 1 2 3 in Ho. simpl in Ho.
  specialize (Hsave (JObj (Json.assign "last_run"
                       (JStr (utcnow_iso (clock w1) +:+ "Z"))
                       (Json.assign "moves" (JArr (records ++ moved)) fields)))).
  destruct (save_log _ _ (tick w1)) as [[] w2|e w2]; simpl in Hsave;
    [|by subst o].
  rewrite assoc_assign_eq in Ho. unfold ret at 1, bind in Ho.
  rewrite <- Hsave.
  pose proof (write_text_frame (source // "report.json")
                (Py.json_dumps (JObj
                   [("moved_count", JNum (Z.of_nat (length moved)));
                    ("moved", JArr moved);
                    ("timestamp", JStr (utcnow_iso (clock w1) +:+ "Z"))]))
                w2 q (Hrest _)) as Hreport.
  destruct (Os.write_text _ _ w2) as [[] w3|e w3]; simpl in Hreport;
    by subst o.
Qed.

End Confinement.

(** ** The log as organize writes it *)

Section LogShape.
Context {P : Platform}.

Lemma mkdir_raw_clock p w : clock (world_of (Os.mkdir_raw p w)) = clock w.
Proof. unfold Os.mkdir_raw. by repeat case_match. Qed.

Lemma mkdir_exist_ok_clock p w :
  clock (world_of (Os.mkdir_exist_ok p w)) = clock w.
Proof.
  unfold Os.mkdir_exist_ok. repeat case_match; try done; apply mkdir_raw_clock.
Qed.

Lemma makedirs_rev_clock rp w :
  clock (world_of (Os.makedirs_rev rp w)) = clock w.
Proof.
  revert w. induction rp as [|c rp IH]; intros w; simpl.
  - by repeat case_match.
  - repeat case_match; try done. unfold bind. specialize (IH w).
    destruct (Os.makedirs_rev rp w) as [[] w1|e w1]; simpl in IH; [|done].
    by rewrite mkdir_exist_ok_clock.
Qed.

Lemma move_clock src dst w : clock (world_of (Shutil.move src dst w)) = clock w.
Proof.
  unfold Shutil.move, Shutil.rename_or_copy, Os.makedirs.
  repeat case_match; try done; unfold bind;
    match goal with
    | |- context [Os.makedirs_rev ?rp w] =>
        pose proof (makedirs_rev_clock rp w) as Hmk;
        destruct (Os.makedirs_rev rp w) as [[] w1|e w1]; simpl in *; done
    end.
Qed.

Lemma write_text_clock p c w : clock (world_of (Os.write_text p c w)) = clock w.
Proof. unfold Os.write_text. by repeat case_match. Qed.

Lemma safe_move_forward src dest w :
  (clock w ≤ clock (world_of (safe_move src dest w)))%nat.
Proof.
  unfold safe_move. unfold bind at 1. unfold Os.path_exists.
  destruct (bool_decide _).
  - unfold bind, Py.now_strftime, Py.with_name.
    destruct dest as [|d0 dest]; simpl; [lia|].
    match goal with
    | |- context [Shutil.move ?a ?b (tick w)] =>
        pose proof (move_clock a b (tick w)) as Hmove;
        destruct (Shutil.move a b (tick w)) as [[] w1|e w1]
    end; simpl in *; lia.
  - unfold bind, ret.
    pose proof (move_clock src dest w) as Hmove.
    destruct (Shutil.move src dest w) as [[] w1|e w1]; simpl in *; lia.
Qed.

Lemma ensure_folder_clock p name w :
  clock (world_of (ensure_folder p name w)) = clock w.
Proof.
  unfold ensure_folder, bind.
  pose proof (mkdir_exist_ok_clock (p // name) w) as Hmk.
  by destruct (Os.mkdir_exist_ok (p // name) w) as [[] w1|e w1].
Qed.

Lemma organize_loop_forward source dry_run items moved w o :
  organize_loop source dry_run items moved w = o →
  (clock w ≤ clock (world_of o))%nat.
Proof.
  revert moved w. induction items as [|item rest IH]; intros moved w Ho.
  { subst o. simpl. lia. }
  rewrite organize_loop_cons in Ho.
  destruct (String.eqb _ _); [by apply (IH moved)|].
  unfold bind at 1 in Ho. unfold Os.is_dir in Ho.
  destruct (match fs w !! item with Some Dir => true | _ => false end);
    [by apply (IH moved)|].
  unfold bind at 1 in Ho.
  pose proof (ensure_folder_clock source
                (category_for (PurePath.suffix item)) w) as Hfolder.
  destruct (ensure_folder _ _ w) as [folder w1|e w1]; simpl in Hfolder;
    [|subst o; simpl; lia].
  unfold bind at 1 in Ho. unfold print in Ho.
  destruct dry_run.
  { change (negb true) with false in Ho. cbv iota in Ho.
    apply IH in Ho. simpl in Ho. lia. }
  change (negb false) with true in Ho. cbv iota in Ho.
  unfold bind at 1 in Ho.
  match type of Ho with
  | context [safe_move ?a ?b ?w2] =>
      pose proof (safe_move_forward a b w2) as Hmove;
      destruct (safe_move a b w2) as [newpath w3|e w3]
  end; simpl in Hmove.
  - apply IH in Ho. lia.
  - subst o. simpl. lia.
Qed.

Lemma log_of_other_entry source n :
  n ≠ LOG_FILE → ¬ inside (source // n) (source // LOG_FILE).
Proof.
  intros Hn [rest Heq]. unfold PurePath.joinpath in Heq.
  rewrite <- app_assoc in Heq. apply app_inv_head in Heq.
  by injection Heq as <-.
Qed.

(** What an executing [organize] has done to the log file when it stops, by
    returning or by raising, over a log that was absent or held move records:
    either the file is as it was, or it holds the dict with the list of move
    records under ["moves"] and, under ["last_run"], the UTC reading taken in
    this run, the last reading of the run, in ISO 8601 form and followed by
    [Z]. *)
Lemma organize_log_outcome {iso : IsoClock P} source w o :
  (∀ fields records,
     fs w !! (source // LOG_FILE) = Some (File (Json (JObj fields))) →
     Json.assoc "moves" fields = Some (JArr records) →
     Forall is_move_record records) →
  organize source false w = o →
  fs (world_of o) !! (source // LOG_FILE) = fs w !! (source // LOG_FILE) ∨
  ∃ fields records n,
    fs (world_of o) !! (source // LOG_FILE)
      = Some (File (Json (JObj fields))) ∧
    Json.assoc "moves" fields = Some (JArr records) ∧
    Forall is_move_record records ∧
    Json.assoc "last_run" fields = Some (JStr (utcnow_iso n +:+ "Z")) ∧
    Text.is_isoformat (utcnow_iso n) = true ∧
    (clock w ≤ n)%nat ∧ clock (world_of o) = S n.
Proof.
  intros Hprior Ho.
  assert (fs w !! source = Some Dir ∨ fs w !! source ≠ Some Dir)
    as [Hdir|Hnodir] by (destruct (fs w !! source) as [[?|]|]; auto);
    [|rewrite (organize_not_dir _ _ _ Hnodir) in Ho; subst o; by left].
  rewrite (organize_on_dir _ _ _ Hdir) in Ho. unfold organize_listed in Ho.
  unfold bind at 1 in Ho.
  destruct (load_log source w) as [log w0|e w0] eqn:Hload;
    [|pose proof (load_log_world source w) as Hw; rewrite Hload in Hw;
      simpl in Hw; subst; by left].
  pose proof (load_log_cases _ _ _ _ Hload) as [-> Hlog].
  unfold bind at 1 in Ho.
  pose proof (organize_loop_keeps source false
                (listdir_order (Os.entries (fs w) source)) [] w
                (source // LOG_FILE) _ (log_of_other_entry source) eq_refl)
    as Hkeep.
  pose proof (organize_loop_forward source false
                (map (PurePath.joinpath source)
                   (listdir_order (Os.entries (fs w) source))) [] w _ eq_refl)
    as Hclock.
  destruct (organize_loop _ _ _ _ w) as [moved w1|e w1] eqn:Hloop;
    simpl in Hkeep, Hclock; [|subst o; by left].
  apply organize_loop_moved in Hloop as (extra & -> & Hextra & _).
  simpl app in Ho. unfold bind at 1 in Ho.
  destruct extra as [|mv extra]; [subst o; by left|].
  change (negb false && true) with true in Ho. cbv iota in Ho.
  unfold bind at 1 2 in Ho. unfold Py.getitem at 1 in Ho.
  destruct log as [| | | | |fields]; try (subst o; by left).
  destruct (Json.assoc "moves" fields) as [moves|] eqn:Hmoves;
    [|subst o; by left].
  unfold ret at 1 in Ho. unfold bind at 1 in Ho.
  destruct moves as [| | | |records|]; try (subst o; by left).
  simpl in Ho. unfold bind at 1 2 3 in Ho. simpl in Ho.
  set (log2 := Json.assign "last_run" (JStr (utcnow_iso (clock w1) +:+ "Z"))
                 (Json.assign "moves" (JArr (records ++ mv :: extra)) fields))
    in *.
  pose proof (write_text_clock (source // LOG_FILE)
                (Py.json_dumps (JObj log2)) (tick w1)) as Hsaveclock.
  pose proof (write_text_frame (source // LOG_FILE)
                (Py.json_dumps (JObj log2)) (tick w1)) as Hsavefail.
  unfold save_log in Ho.
  destruct (Os.write_text (source // LOG_FILE) _ (tick w1)) as [[] w2|e w2]
    eqn:Hsave; simpl in Hsaveclock.
  2:{ subst o. left. simpl. rewrite <- Hkeep.
      unfold Os.write_text in Hsave.
      repeat case_match; by simplify_eq. }
  right. exists log2, (records ++ mv :: extra), (clock w1).
  assert (Json.assoc "last_run" log2 =
            Some (JStr (utcnow_iso (clock w1) +:+ "Z"))) as Hstamp
    by apply assoc_assign_eq.
  rewrite Hstamp in Ho. unfold ret at 1, bind in Ho.
  match type of Ho with
  | context [Os.write_text ?p ?c w2] =>
      pose proof (write_text_frame p c w2 (source // LOG_FILE)) as Hreport;
      pose proof (write_text_clock p c w2) as Hreportclock;
      destruct (Os.write_text p c w2) as [[] w3|e w3]
  end; simpl in Hreport, Hreportclock; subst o; simpl;
    (rewrite Hreport by (intros Heq; by apply joinpath_inj in Heq));
    rewrite (write_text_lookup _ _ _ _ Hsave);
    (split; [done|]);
    (split; [unfold log2; rewrite assoc_assign_ne by done;
             apply assoc_assign_eq|]);
    (split; [apply Forall_app; split; [|done];
             destruct Hlog as [[_ Hfresh]|Hfile];
             [injection Hfresh as ->; simpl in Hmoves;
              by injection Hmoves as <-
             |by apply (Hprior fields)]|]);
    (split; [done|]); (split; [apply utcnow_iso_shape|]);
    (split; [done|]); by rewrite Hreportclock, Hsaveclock.
Qed.

(** C10, as the code has it. Every log an executing run of [organize]
    persists, over a log that was absent or held move records and also when
    the run fails afterwards at the report, is a dict with the list of move
    records under ["moves"] and, under ["last_run"], the ISO 8601 rendering
    of the UTC reading of that run followed by [Z]; a run that persists no
    log leaves the log file as it was. The log [undo] writes is the dict with
    the empty list under ["moves"] and nothing else: it has no
    ["last_run"]. *)
Theorem written_log_shape {iso : IsoClock P} (source : path) (w : World) :
  (∀ fields records,
     fs w !! (source // LOG_FILE) = Some (File (Json (JObj fields))) →
     Json.assoc "moves" fields = Some (JArr records) →
     Forall is_move_record records) →
  (fs (world_of (organize source false w)) !! (source // LOG_FILE)
     = fs w !! (source // LOG_FILE) ∨
   ∃ fields records n,
     fs (world_of (organize source false w)) !! (source // LOG_FILE)
       = Some (File (Json (JObj fields))) ∧
     Json.assoc "moves" fields = Some (JArr records) ∧
     Forall is_move_record records ∧
     Json.assoc "last_run" fields = Some (JStr (utcnow_iso n +:+ "Z")) ∧
     Text.is_isoformat (utcnow_iso n) = true ∧
     (clock w ≤ n)%nat ∧
     clock (world_of (organize source false w)) = S n) ∧
  (∀ w', undo source w = Return tt w' →
     w' = put_line "No recorded moves to undo." w ∨
     fs w' !! (source // LOG_FILE) = Some (File (Json cleared_log))) ∧
  ¬ log_shape cleared_log.
Proof.
  intros Hprior. split; [by apply organize_log_outcome|].
  split; [intros w'; apply undo_returns|apply cleared_log_no_last_run].
Qed.

End LogShape.

Lemma sample_iso : IsoClock sample_platform.
Proof. intros n. reflexivity. Qed.

Lemma written_log_shape_witness :
  ∃ fields records n,
    fs (world_of (organize (H := sample_platform) desk false later_desk))
      !! (desk // LOG_FILE) = Some (File (Json (JObj fields))) ∧
    Json.assoc "moves" fields = Some (JArr records) ∧
    Forall is_move_record records ∧
    Json.assoc "last_run" fields =
      Some (JStr (utcnow_iso (Platform := sample_platform) n +:+ "Z")) ∧
    Text.is_isoformat (utcnow_iso (Platform := sample_platform) n) = true ∧
    (clock later_desk ≤ n)%nat ∧
    clock (world_of (organize (H := sample_platform) desk false later_desk))
      = S n.
Proof.
  destruct (written_log_shape (P := sample_platform) (iso := sample_iso)
              desk later_desk) as ([Hsame|Hshape] & _ & _).
  - intros fields records Hfile Hmoves.
    vm_compute in Hfile. injection Hfile as <-.
    vm_compute in Hmoves. injection Hmoves as <-.
    repeat constructor; by eexists _, _.
  - exfalso. vm_compute in Hsame. discriminate Hsame.
  - exact Hshape.
Defined.

(** ** What an executing run records *)

Section Records.
Context `{Platform}.














End Records.

(** ** Undo, once more *)

Section UndoMore.
Context `{Platform}.

Lemma load_log_same_files source log w w2 :
  load_log source w = Return log w → fs w2 = fs w →
  load_log source w2 = Return log w2.
Proof.
  intros Hload Hfs. apply load_log_cases in Hload as [_ [[Hnone ->]|Hfile]].
  - apply load_log_absent. by rewrite Hfs.
  - apply load_log_json. by rewrite Hfs.
Qed.

(** X17. After an [undo] that returned, a second [undo] finds nothing to undo: it
    prints so and changes nothing. *)
Theorem undo_twice (source : path) (w w' : World) :
  undo source w = Return tt w' →
  undo source w' = Return tt (put_line "No recorded moves to undo." w').
Proof.
  intros Hrun. unfold undo in Hrun. unfold bind at 1 in Hrun.
  destruct (load_log source w) as [log w0|] eqn:Hload; [|done].
  pose proof (load_log_cases _ _ _ _ Hload) as [-> _].
  unfold bind at 1 in Hrun. destruct log as [| | | | |fields]; try done.
  simpl in Hrun.
  destruct (Json.truthy (default JNull (Json.assoc "moves" fields))) eqn:Htrue;
    simpl in Hrun.
  - unfold bind in Hrun.
    destruct (Json.assoc "moves" fields) as [moves|]; [|done].
    unfold ret in Hrun.
    destruct (Py.reversed moves w) as [records w2|]; [|done].
    destruct (undo_loop records w2) as [[] w3|]; [|done].
    destruct (Os.write_text _ _ w3) as [[] w4|] eqn:Hwrite; [|done].
    injection Hrun as <-.
    apply write_text_lookup in Hwrite.
    unfold undo. unfold bind at 1.
    rewrite (load_log_json source (JObj [("moves", JArr [])])) by done.
    reflexivity.
  - injection Hrun as <-.
    unfold undo. unfold bind at 1.
    rewrite (load_log_same_files source (JObj fields) w) by done.
    unfold bind at 1. simpl. by rewrite Htrue.
Qed.

(** X12. One step of an executing [organize] on a regular file whose name is
    already taken in its category folder: the file there stays as it is, the
    incoming file is stored beside it under the stamped name, and it is that
    name which the record keeps under ["to"]. *)
Theorem organize_step_collision (source : path) (n : string) (c : content)
    (rest : list path) (moved : list json) (w : World) :
  n ≠ LOG_FILE →
  fs w !! (source // n) = Some (File c) →
  fs w !! (source // category_for (PurePath.suffix_of n)) = Some Dir →
  is_Some (fs w !! (source // category_for (PurePath.suffix_of n) // n)) →
  fs w !! (source // category_for (PurePath.suffix_of n)
             // stamped_name n (strftime_now (clock w))) ≠ Some Dir →
  organize_loop source false (source // n :: rest) moved w =
    organize_loop source false rest
      (moved ++ [move_record (PurePath.str (source // n))
                   (PurePath.str (source // category_for (PurePath.suffix_of n)
                                    // stamped_name n (strftime_now (clock w))))])
      (mkWorld
         (<[source // category_for (PurePath.suffix_of n)
              // stamped_name n (strftime_now (clock w)) := File c]>
            (delete (source // n) (fs w)))
         (stdout w ++ [announce false n (category_for (PurePath.suffix_of n))])
         (S (clock w))).
Proof.
  intros Hname Hfile Hfolder Htaken Hnodir.
  set (cat := category_for (PurePath.suffix_of n)) in *.
  rewrite organize_loop_cons. unfold PurePath.suffix.
  rewrite name_joinpath. fold cat.
  apply String.eqb_neq in Hname. rewrite Hname.
  unfold bind at 1. unfold Os.is_dir. rewrite Hfile.
  unfold bind at 1.
  pose proof (ensure_folder_cases source cat w) as Hcases.
  rewrite Hfolder in Hcases. rewrite Hcases.
  unfold bind at 1. unfold print.
  change (negb false) with true. cbv iota. unfold bind at 1.
  by rewrite (safe_move_stamped (source // n) (source // cat) n c).
Qed.

End UndoMore.

(** ** The further properties at work on the example directory *)

Lemma categories_disjoint_witness : "Images" = "Images".
Proof.
  apply (categories_disjoint "Images" "Images"
           (list_to_set [".png"; ".jpg"; ".jpeg"; ".gif"; ".bmp"; ".svg"; ".webp"])
           (list_to_set [".png"; ".jpg"; ".jpeg"; ".gif"; ".bmp"; ".svg"; ".webp"])
           ".png").
  - left.
  - left.
  - vm_compute. set_solver.
  - vm_compute. set_solver.
Defined.

Lemma corrupt_log_aborts_witness :
  organize (H := sample_platform) desk false corrupt_desk
    = Raise JSONDecodeError corrupt_desk ∧
  undo (H := sample_platform) desk corrupt_desk
    = Raise JSONDecodeError corrupt_desk.
Proof.
  apply (corrupt_log_aborts (H := sample_platform) desk false "{" corrupt_desk).
  - vm_compute. reflexivity.
  - vm_compute. reflexivity.
Defined.

Lemma ensure_folder_idempotent_witness :
  ensure_folder desk "Images"
    (world_of (ensure_folder desk "Images" fresh_desk))
  = Return (desk // "Images")
      (world_of (ensure_folder desk "Images" fresh_desk)).
Proof.
  apply (ensure_folder_idempotent desk "Images" fresh_desk
           (world_of (ensure_folder desk "Images" fresh_desk))
           (desk // "Images")).
  apply returned. vm_compute. reflexivity.
Defined.

Lemma category_named_file_stops_loop_witness :
  organize_loop (H := sample_platform) desk true [desk // "Others"] []
    others_desk = Raise FileExistsError others_desk.
Proof.
  apply (category_named_file_stops_loop (H := sample_platform) desk
           (desk // "Others") true [] [] (Raw "x") (Raw "x") others_desk).
  - vm_compute. discriminate.
  - vm_compute. reflexivity.
  - vm_compute. reflexivity.
Defined.

Lemma organize_nothing_to_do_witness :
  organize (H := sample_platform) desk false emptied = Return true emptied.
Proof.
  apply (organize_nothing_to_do (P := sample_platform)
           (faithful := sample_listing) desk false emptied).
  - vm_compute. reflexivity.
  - vm_compute. discriminate.
  - intros n c Hn. unfold emptied, desktop in Hn. simpl fs in Hn.
    repeat (apply lookup_insert_Some in Hn as [[Heq Hx]|[_ Hn]];
            [try discriminate Hx|]).
    + injection Hx as <-. unfold desk, PurePath.joinpath in Heq.
      simpl in Heq. injection Heq as <-. split; [reflexivity|by eexists].
    + by rewrite lookup_empty in Hn.
Defined.


Lemma undo_one_restores_witness :
  undo_one (H := sample_platform)
    (move_record "/home/user/Desktop/a.png" "/home/user/Desktop/Images/a.png")
    organized =
  Return tt
    (mkWorld (<[desk // "a.png" := File (Raw "A")]>
                (delete (desk // "Images" // "a.png") (fs organized)))
       (stdout organized ++
          [undo_line (desk // "Images" // "a.png") (desk // "a.png")])
       (clock organized)).
Proof.
  apply (undo_one_restores (H := sample_platform)
           (move_record "/home/user/Desktop/a.png" "/home/user/Desktop/Images/a.png")
           (desk // "Images" // "a.png") desk "a.png" (Raw "A") organized).
  - vm_compute. reflexivity.
  - vm_compute. reflexivity.
  - vm_compute. discriminate.
  - vm_compute. reflexivity.
  - vm_compute. reflexivity.
Defined.

Lemma organize_step_moves_file_witness :
  organize_loop (H := sample_platform) desk false [desk // "a.png"] [] fresh_desk =
    organize_loop (H := sample_platform) desk false []
      ([] ++ [move_record (PurePath.str (desk // "a.png"))
                (PurePath.str (desk // category_for (H := sample_platform) (PurePath.suffix_of "a.png")
                                 // "a.png"))])
      (mkWorld
         (<[desk // category_for (H := sample_platform) (PurePath.suffix_of "a.png") // "a.png"
              := File (Raw "A")]>
            (delete (desk // "a.png")
               (<[desk // category_for (H := sample_platform) (PurePath.suffix_of "a.png") := Dir]>
                  (fs fresh_desk))))
         (stdout fresh_desk ++
            [announce false "a.png" (category_for (H := sample_platform) (PurePath.suffix_of "a.png"))])
         (clock fresh_desk)).
Proof.
  apply (organize_step_moves_file (H := sample_platform) desk "a.png" (Raw "A")
           [] [] fresh_desk).
  - vm_compute. discriminate.
  - vm_compute. reflexivity.
  - vm_compute. reflexivity.
  - intros c'. vm_compute. discriminate.
  - vm_compute. reflexivity.
Defined.

Lemma record_round_trip_witness :
  PurePath.parse (PurePath.str (desk // "a.png")) = desk // "a.png" ∧
  record_paths (move_record (PurePath.str (desk // "a.png"))
                  (PurePath.str (desk // "Images" // "a.png")))
    = Some (desk // "Images" // "a.png", desk // "a.png").
Proof.
  apply (record_round_trip (desk // "a.png") (desk // "Images" // "a.png")).
  - repeat constructor; vm_compute; discriminate.
  - repeat constructor; vm_compute; discriminate.
Defined.

Lemma undo_rejects_ill_typed_log_witness :
  undo (H := sample_platform) desk listlog_desk
    = Raise AttributeError listlog_desk.
Proof.
  apply (proj1 (undo_rejects_ill_typed_log (H := sample_platform) desk
                  (JArr []) listlog_desk ltac:(vm_compute; reflexivity))).
  intros fields. discriminate.
Defined.

Lemma main_on_missing_directory_witness :
  main (H := sample_platform) ["nowhere"] false true false organized =
    Return tt
      (mkWorld (fs organized)
         (stdout organized ++
            ["Preview:"] ++ ["Source folder does not exist: /nowhere"])
         (clock organized)).
Proof.
  apply (main_on_missing_directory (H := sample_platform) ["nowhere"]
           false true false organized).
  - vm_compute. discriminate.
  - vm_compute. reflexivity.
Defined.

Lemma organize_stays_inside_witness :
  fs (world_of (organize (H := sample_platform) desk false fresh_desk))
    !! ["home"; "user"] = fs fresh_desk !! ["home"; "user"].
Proof.
  apply (organize_stays_inside (H := sample_platform) desk false fresh_desk).
  intros [rest Heq]. discriminate Heq.
Defined.

Lemma undo_twice_witness :
  undo (H := sample_platform) desk
    (world_of (undo (H := sample_platform) desk organized)) =
  Return tt
    (put_line "No recorded moves to undo."
       (world_of (undo (H := sample_platform) desk organized))).
Proof.
  apply (undo_twice (H := sample_platform) desk organized).
  apply returned. vm_compute. reflexivity.
Defined.

Lemma organize_step_collision_witness :
  organize_loop (H := sample_platform) desk false [desk // "a.png"] []
    crowded_desk =
    organize_loop (H := sample_platform) desk false []
      ([] ++ [move_record (PurePath.str (desk // "a.png"))
                (PurePath.str
                   (desk // category_for (H := sample_platform) (PurePath.suffix_of "a.png")
                      // stamped_name "a.png"
                           (strftime_now (Platform := sample_platform)
                              (clock crowded_desk))))])
      (mkWorld
         (<[desk // category_for (H := sample_platform) (PurePath.suffix_of "a.png")
              // stamped_name "a.png"
                   (strftime_now (Platform := sample_platform)
                      (clock crowded_desk)) := File (Raw "new")]>
            (delete (desk // "a.png") (fs crowded_desk)))
         (stdout crowded_desk ++
            [announce false "a.png" (category_for (H := sample_platform) (PurePath.suffix_of "a.png"))])
         (S (clock crowded_desk))).
Proof.
  apply (organize_step_collision (H := sample_platform) desk "a.png" (Raw "new")
           [] [] crowded_desk).
  - vm_compute. discriminate.
  - vm_compute. reflexivity.
  - vm_compute. reflexivity.
  - vm_compute. eauto.
  - vm_compute. discriminate.
Defined.
